(** * ReQue: permission hook, row-level-security policies and audit triggers

    A shallow embedding of the authorization and audit logic of the ReQue
    request tracker:

    - [src/lib/supabase/types.ts]: the row types and the three enums;
    - [src/hooks/use-permissions.ts]: the client-side capability flags;
    - the SQL migrations: row-level-security policies on the five tables
      as each migration leaves them, the audit triggers
      [log_request_created], [log_request_status_change], [log_file_upload]
      and the signup trigger [handle_new_user];
    - the request pages: the statements they send and the controls they
      render.

    Tables are lists of rows in insertion order.  SQL conditions are
    evaluated in three-valued logic, [NULL] being [None].  A statement of
    a client is rewritten with the policies of its table before it runs;
    a sub-select inside a policy reads its table through the [SELECT]
    policies of that table, and a policy that reaches itself this way
    makes the rewriter stop with an error. *)

From stdpp Require Import base decidable option list strings gmap sorting.
From Stdlib Require Import ZArith.

Set Warnings "-clear-no-such-hyp".

Open Scope string_scope.
Open Scope list_scope.
Open Scope Z_scope.

(** ** Enums: [src/lib/supabase/types.ts] lines 1-3 and the [CREATE TYPE]s *)

Inductive UserRole := role_admin | role_team_member | role_user | role_guest.
Inductive RequestStatus :=
  status_new | status_in_progress | status_under_review
| status_completed | status_rejected.
Inductive RequestPriority := priority_normal | priority_high | priority_urgent.

#[global] Instance UserRole_eq_dec : EqDecision UserRole.
Proof. solve_decision. Defined.
#[global] Instance RequestStatus_eq_dec : EqDecision RequestStatus.
Proof. solve_decision. Defined.
#[global] Instance RequestPriority_eq_dec : EqDecision RequestPriority.
Proof. solve_decision. Defined.

(** The labels, in the order of the [CREATE TYPE ... AS ENUM] statements. *)
Definition user_role_labels : list string :=
  ["admin"; "team_member"; "user"; "guest"].
Definition request_status_labels : list string :=
  ["new"; "in_progress"; "under_review"; "completed"; "rejected"].
Definition request_priority_labels : list string :=
  ["normal"; "high"; "urgent"].

(** [x::text] on an enum value. *)
Definition user_role_out (r : UserRole) : string :=
  match r with
  | role_admin => "admin" | role_team_member => "team_member"
  | role_user => "user" | role_guest => "guest"
  end.
Definition request_status_out (s : RequestStatus) : string :=
  match s with
  | status_new => "new" | status_in_progress => "in_progress"
  | status_under_review => "under_review" | status_completed => "completed"
  | status_rejected => "rejected"
  end.
Definition request_priority_out (p : RequestPriority) : string :=
  match p with
  | priority_normal => "normal" | priority_high => "high"
  | priority_urgent => "urgent"
  end.

(** [t::user_role] and friends on a text: [None] is the error
    "invalid input value for enum". *)
Definition user_role_in (t : string) : option UserRole :=
  if decide (t = "admin") then Some role_admin
  else if decide (t = "team_member") then Some role_team_member
  else if decide (t = "user") then Some role_user
  else if decide (t = "guest") then Some role_guest
  else None.
Definition request_status_in (t : string) : option RequestStatus :=
  if decide (t = "new") then Some status_new
  else if decide (t = "in_progress") then Some status_in_progress
  else if decide (t = "under_review") then Some status_under_review
  else if decide (t = "completed") then Some status_completed
  else if decide (t = "rejected") then Some status_rejected
  else None.
Definition request_priority_in (t : string) : option RequestPriority :=
  if decide (t = "normal") then Some priority_normal
  else if decide (t = "high") then Some priority_high
  else if decide (t = "urgent") then Some priority_urgent
  else None.

(** ** Rows: [src/lib/supabase/types.ts] lines 5-56

    A uuid is its text; a [timestamptz] is an instant on the integer time
    line. *)

Module Profile.
Record t := mk {
  id : string;
  email : string;
  full_name : option string;
  avatar_url : option string;
  role : UserRole;
  created_at : Z;
  updated_at : Z;
}.
End Profile.

Module Request.
Record t := mk {
  id : string;
  title : string;
  description : option string;
  status : RequestStatus;
  priority : RequestPriority;
  due_date : option Z;
  created_by : string;
  assigned_to : option string;
  created_at : Z;
  updated_at : Z;
}.
End Request.

Module RequestAttachment.
Record t := mk {
  id : string;
  request_id : string;
  file_url : string;
  filename : string;
  file_size : option Z;
  mime_type : option string;
  uploaded_by : string;
  created_at : Z;
}.
End RequestAttachment.

Module RequestComment.
Record t := mk {
  id : string;
  request_id : string;
  user_id : string;
  comment_text : string;
  created_at : Z;
  updated_at : Z;
}.
End RequestComment.

(** The columns an [INSERT INTO request_activity] names; [id] and
    [created_at] are filled by the column defaults and the position in the
    table is the insertion order. *)
Module RequestActivity.
Record t := mk {
  request_id : string;
  user_id : string;
  activity_type : string;
  old_value : option string;
  new_value : option string;
}.
End RequestActivity.

#[global] Instance RequestActivity_eq_dec : EqDecision RequestActivity.t.
Proof. solve_decision. Defined.

(** The auth user of the session provider; only [id] is read. *)
Module User.
Record t := mk {
  id : string;
  email : option string;
}.
End User.

(** What [useAuth()] hands to the hook. *)
Record AuthContext := {
  profile : option Profile.t;
  user : option User.t;
}.

(** ** The permission hook: [src/hooks/use-permissions.ts] *)

Record Permissions := {
  role : option UserRole;
  isAdmin : bool;
  isTeamMember : bool;
  isUser : bool;
  isGuest : bool;
  canCreateRequest : bool;
  canViewAllRequests : bool;
  canEditAnyRequest : bool;
  canDeleteAnyRequest : bool;
  canEditRequest : string -> option string -> bool;
  canDeleteRequest : string -> bool;
  canCommentOnRequest : string -> bool;
  canViewRequest : string -> bool;
  canManageUsers : bool;
}.

(** [a === user.id] where [a] may be [null] or [undefined]. *)
Definition strict_eq_opt (a : option string) (b : string) : bool :=
  match a with
  | Some x => bool_decide (x = b)
  | None => false
  end.

Definition usePermissions (auth : AuthContext) : Permissions :=
  let role : option UserRole := Profile.role <$> profile auth in
  let isAdmin := bool_decide (role = Some role_admin) in
  let isTeamMember := bool_decide (role = Some role_team_member) in
  let isUser := bool_decide (role = Some role_user) in
  let isGuest := bool_decide (role = Some role_guest) in
  let canCreateRequest := isAdmin || isTeamMember || isUser in
  let canViewAllRequests := isAdmin || isTeamMember in
  let canEditAnyRequest := isAdmin in
  let canDeleteAnyRequest := isAdmin in
  let canEditRequest (createdBy : string) (assignedTo : option string) :=
    match user auth with
    | None => false
    | Some u =>
        if isAdmin then true
        else if isTeamMember && strict_eq_opt assignedTo (User.id u) then true
        else bool_decide (createdBy = User.id u)
    end in
  let canDeleteRequest (createdBy : string) :=
    match user auth with
    | None => false
    | Some u =>
        if isAdmin then true else bool_decide (createdBy = User.id u)
    end in
  let canCommentOnRequest (createdBy : string) :=
    match user auth with
    | None => false
    | Some u =>
        if isGuest then false
        else if isAdmin || isTeamMember then true
        else bool_decide (createdBy = User.id u)
    end in
  let canViewRequest (createdBy : string) :=
    match user auth with
    | None => false
    | Some u =>
        if isAdmin || isTeamMember then true
        else bool_decide (createdBy = User.id u)
    end in
  let canManageUsers := isAdmin in
  {| role := role;
     isAdmin := isAdmin;
     isTeamMember := isTeamMember;
     isUser := isUser;
     isGuest := isGuest;
     canCreateRequest := canCreateRequest;
     canViewAllRequests := canViewAllRequests;
     canEditAnyRequest := canEditAnyRequest;
     canDeleteAnyRequest := canDeleteAnyRequest;
     canEditRequest := canEditRequest;
     canDeleteRequest := canDeleteRequest;
     canCommentOnRequest := canCommentOnRequest;
     canViewRequest := canViewRequest;
     canManageUsers := canManageUsers |}.

(** ** SQL conditions *)

Module Sql.
(** A condition is [Some true], [Some false] or [None] for [NULL]. *)
Definition tv := option bool.

Definition and3 (a b : tv) : tv :=
  match a, b with
  | Some false, _ | _, Some false => Some false
  | Some true, Some true => Some true
  | _, _ => None
  end.

Definition or3 (a b : tv) : tv :=
  match a, b with
  | Some true, _ | _, Some true => Some true
  | Some false, Some false => Some false
  | _, _ => None
  end.

(** [x = y] on nullable values. *)
Definition eq3 {A} `{EqDecision A} (x y : option A) : tv :=
  match x, y with
  | Some a, Some b => Some (bool_decide (a = b))
  | _, _ => None
  end.

(** [x IN (v1, ..., vn)] with non-null literals. *)
Definition in3 {A} `{EqDecision A} (x : option A) (vs : list A) : tv :=
  foldr (fun v acc => or3 (eq3 x (Some v)) acc) (Some false) vs.

(** A row passes a [WHERE], [USING] or [WITH CHECK] condition only when
    the condition is true; [NULL] rejects like [false]. *)
Definition holds (c : tv) : bool :=
  match c with Some true => true | _ => false end.

(** [EXISTS (SELECT 1 FROM rows WHERE cond)]: never [NULL]. *)
Definition exists_ {A} (cond : A -> tv) (rows : list A) : tv :=
  Some (existsb (fun r => holds (cond r)) rows).

(** [x IS DISTINCT FROM y]: a null-safe comparison, never [NULL]. *)
Definition is_distinct_from {A} `{EqDecision A} (x y : option A) : bool :=
  bool_decide (x <> y).
End Sql.

Infix "&&&" := Sql.and3 (at level 40, left associativity).
Infix "|||" := Sql.or3 (at level 50, left associativity).

(** ** The database and the session *)

Record Database := {
  profiles : list Profile.t;
  requests : list Request.t;
  request_attachments : list RequestAttachment.t;
  request_comments : list RequestComment.t;
  request_activity : list RequestActivity.t;
}.

Inductive PgRole := anon | authenticated.
#[global] Instance PgRole_eq_dec : EqDecision PgRole.
Proof. solve_decision. Defined.

(** The database role of the connection and the value of [auth.uid()]. *)
Record Session := {
  pg_role : PgRole;
  auth_uid : option string;
}.

Definition signed_in (uid : string) : Session :=
  {| pg_role := authenticated; auth_uid := Some uid |}.

(** ** Row-level security *)

Inductive Command := SELECT | INSERT | UPDATE | DELETE.
#[global] Instance Command_eq_dec : EqDecision Command.
Proof. solve_decision. Defined.

Inductive Table :=
  t_profiles | t_requests | t_request_attachments
| t_request_comments | t_request_activity.
#[global] Instance Table_eq_dec : EqDecision Table.
Proof. solve_decision. Defined.

Definition all_tables : list Table :=
  [t_profiles; t_requests; t_request_attachments; t_request_comments;
   t_request_activity].

Section Rls.
Context {Row : Type}.

(** A condition of a policy on a row.  Its [Database] argument holds the
    rows that the sub-selects of the condition get to see, which are not
    all the rows of the tables: see [rls_view]. *)
Definition Expr := Database -> Session -> Row -> Sql.tv.

(** [FOR SELECT USING], [FOR INSERT WITH CHECK],
    [FOR UPDATE USING ... WITH CHECK], [FOR DELETE USING]. *)
Inductive PolicyBody :=
| ForSelect (using_expr : Expr)
| ForInsert (with_check_expr : Expr)
| ForUpdate (using_expr with_check_expr : Expr)
| ForDelete (using_expr : Expr).

(** [policy_subselects]: the sub-selects of [USING] and [WITH CHECK], the
    nested ones included and a repeated one listed once, each with the
    tables of its [FROM] clause; [(select auth.uid())] has none. *)
Record Policy := {
  policy_name : string;
  policy_to : PgRole;
  policy_subselects : list (list Table);
  policy_body : PolicyBody;
}.

Definition policy_command (p : Policy) : Command :=
  match policy_body p with
  | ForSelect _ => SELECT
  | ForInsert _ => INSERT
  | ForUpdate _ _ => UPDATE
  | ForDelete _ => DELETE
  end.

Definition using_of (c : Command) (b : PolicyBody) : option Expr :=
  match c, b with
  | SELECT, ForSelect u | UPDATE, ForUpdate u _ | DELETE, ForDelete u =>
      Some u
  | _, _ => None
  end.

Definition check_of (c : Command) (b : PolicyBody) : option Expr :=
  match c, b with
  | INSERT, ForInsert w | UPDATE, ForUpdate _ w => Some w
  | _, _ => None
  end.

Definition passes (db : Database) (s : Session) (row : Row)
    (e : option Expr) : bool :=
  match e with
  | Some e => Sql.holds (e db s row)
  | None => false
  end.

(** The table has row-level security enabled and all its policies are
    permissive: a row is admitted when some policy for the command and
    the role admits it, and rejected when there is none.  [db] is what the
    sub-selects of the conditions see. *)
Definition rls_using (pols : list Policy) (c : Command)
    (db : Database) (s : Session) (row : Row) : bool :=
  existsb (fun p => bool_decide (policy_to p = pg_role s)
                    && passes db s row (using_of c (policy_body p))) pols.

Definition rls_check (pols : list Policy) (c : Command)
    (db : Database) (s : Session) (row : Row) : bool :=
  existsb (fun p => bool_decide (policy_to p = pg_role s)
                    && passes db s row (check_of c (policy_body p))) pols.
End Rls.

Arguments Expr : clear implicits.
Arguments PolicyBody : clear implicits.
Arguments Policy : clear implicits.

(** [EXISTS (SELECT 1 FROM profiles WHERE id = auth.uid() AND role IN (...))],
    on the rows of [profiles] that the sub-select sees. *)
Definition profile_role_in (roles : list UserRole)
    (db : Database) (s : Session) : Sql.tv :=
  Sql.exists_
    (fun p => Sql.eq3 (Some (Profile.id p)) (auth_uid s)
              &&& Sql.in3 (Some (Profile.role p)) roles)
    (profiles db).

(** [created_by = auth.uid()] and [assigned_to = auth.uid()] on a request. *)
Definition created_by_me (s : Session) (r : Request.t) : Sql.tv :=
  Sql.eq3 (Some (Request.created_by r)) (auth_uid s).
Definition assigned_to_me (s : Session) (r : Request.t) : Sql.tv :=
  Sql.eq3 (Request.assigned_to r) (auth_uid s).

(** *** The first migration: policies on [requests] *)

Module V1.

Definition requests_policies : list (Policy Request.t) := [
  {| policy_name := "Users can read own requests";
     policy_to := authenticated;
     policy_subselects := [];
     policy_body := ForSelect (fun db s r => created_by_me s r) |};
  {| policy_name := "Admins and team members can read all requests";
     policy_to := authenticated;
     policy_subselects := [[t_profiles]];
     policy_body :=
       ForSelect (fun db s r =>
         profile_role_in [role_admin; role_team_member] db s) |};
  {| policy_name := "Authenticated users can create requests";
     policy_to := authenticated;
     policy_subselects := [[t_profiles]];
     policy_body :=
       ForInsert (fun db s r =>
         created_by_me s r
         &&& profile_role_in [role_admin; role_team_member; role_user] db s) |};
  {| policy_name := "Users can update own requests";
     policy_to := authenticated;
     policy_subselects := [];
     policy_body :=
       ForUpdate (fun db s r => created_by_me s r)
                 (fun db s r => created_by_me s r) |};
  {| policy_name := "Admins can update any request";
     policy_to := authenticated;
     policy_subselects := [[t_profiles]];
     policy_body :=
       ForUpdate (fun db s r => profile_role_in [role_admin] db s)
                 (fun db s r => profile_role_in [role_admin] db s) |};
  {| policy_name := "Team members can update assigned requests";
     policy_to := authenticated;
     policy_subselects := [[t_profiles]];
     policy_body :=
       ForUpdate
         (fun db s r =>
            assigned_to_me s r &&& profile_role_in [role_team_member] db s)
         (fun db s r =>
            assigned_to_me s r &&& profile_role_in [role_team_member] db s) |};
  {| policy_name := "Users can delete own requests";
     policy_to := authenticated;
     policy_subselects := [];
     policy_body := ForDelete (fun db s r => created_by_me s r) |};
  {| policy_name := "Admins can delete any request";
     policy_to := authenticated;
     policy_subselects := [[t_profiles]];
     policy_body :=
       ForDelete (fun db s r => profile_role_in [role_admin] db s) |}
].

(** [EXISTS (SELECT 1 FROM requests WHERE id = <row>.request_id AND
    (created_by = auth.uid() OR EXISTS (... role IN ('admin',
    'team_member'))))], on the rows of [requests] and of [profiles] that
    the sub-selects see. *)
Definition request_viewable (request_id : string)
    (db : Database) (s : Session) : Sql.tv :=
  Sql.exists_
    (fun r => Sql.eq3 (Some (Request.id r)) (Some request_id)
              &&& (created_by_me s r
                   ||| profile_role_in [role_admin; role_team_member] db s))
    (requests db).

Definition request_comments_policies : list (Policy RequestComment.t) := [
  {| policy_name := "Users can read comments for viewable requests";
     policy_to := authenticated;
     policy_subselects := [[t_requests]; [t_profiles]];
     policy_body :=
       ForSelect (fun db s c =>
         request_viewable (RequestComment.request_id c) db s) |};
  {| policy_name := "Users can insert comments on viewable requests";
     policy_to := authenticated;
     policy_subselects := [[t_requests]; [t_profiles]];
     policy_body :=
       ForInsert (fun db s c =>
         Sql.eq3 (Some (RequestComment.user_id c)) (auth_uid s)
         &&& request_viewable (RequestComment.request_id c) db s) |};
  {| policy_name := "Users can update own comments";
     policy_to := authenticated;
     policy_subselects := [];
     policy_body :=
       ForUpdate
         (fun db s c => Sql.eq3 (Some (RequestComment.user_id c)) (auth_uid s))
         (fun db s c => Sql.eq3 (Some (RequestComment.user_id c)) (auth_uid s)) |};
  {| policy_name := "Users can delete own comments";
     policy_to := authenticated;
     policy_subselects := [];
     policy_body :=
       ForDelete (fun db s c =>
         Sql.eq3 (Some (RequestComment.user_id c)) (auth_uid s)) |};
  {| policy_name := "Admins can delete any comment";
     policy_to := authenticated;
     policy_subselects := [[t_profiles]];
     policy_body :=
       ForDelete (fun db s c => profile_role_in [role_admin] db s) |}
].

Definition request_activity_policies : list (Policy RequestActivity.t) := [
  {| policy_name := "Users can read activity for viewable requests";
     policy_to := authenticated;
     policy_subselects := [[t_requests]; [t_profiles]];
     policy_body :=
       ForSelect (fun db s a =>
         request_viewable (RequestActivity.request_id a) db s) |};
  {| policy_name := "System can insert activity";
     policy_to := authenticated;
     policy_subselects := [];
     policy_body :=
       ForInsert (fun db s a =>
         Sql.eq3 (Some (RequestActivity.user_id a)) (auth_uid s)) |}
].

Definition request_attachments_policies
    : list (Policy RequestAttachment.t) := [
  {| policy_name := "Users can read attachments for viewable requests";
     policy_to := authenticated;
     policy_subselects := [[t_requests]; [t_profiles]];
     policy_body :=
       ForSelect (fun db s a =>
         request_viewable (RequestAttachment.request_id a) db s) |};
  {| policy_name := "Users can insert attachments for editable requests";
     policy_to := authenticated;
     policy_subselects := [[t_requests]; [t_profiles]];
     policy_body :=
       ForInsert (fun db s a =>
         Sql.eq3 (Some (RequestAttachment.uploaded_by a)) (auth_uid s)
         &&& Sql.exists_
               (fun r =>
                  Sql.eq3 (Some (Request.id r))
                          (Some (RequestAttachment.request_id a))
                  &&& (created_by_me s r ||| assigned_to_me s r
                       ||| profile_role_in [role_admin] db s))
               (requests db)) |};
  {| policy_name := "Users can delete own attachments";
     policy_to := authenticated;
     policy_subselects := [];
     policy_body :=
       ForDelete (fun db s a =>
         Sql.eq3 (Some (RequestAttachment.uploaded_by a)) (auth_uid s)) |};
  {| policy_name := "Admins can delete any attachment";
     policy_to := authenticated;
     policy_subselects := [[t_profiles]];
     policy_body :=
       ForDelete (fun db s a => profile_role_in [role_admin] db s) |}
].

End V1.

(** *** The latest migration: one consolidated policy per command

    [p.id = (select auth.uid())] is [auth.uid()] evaluated once per
    statement; its value is the same.  For the rewriter it is a
    sub-select like any other, one that reads no table. *)

Module V2.

Definition request_viewable := V1.request_viewable.

Definition requests_policies : list (Policy Request.t) := [
  {| policy_name := "Users can read accessible requests";
     policy_to := authenticated;
     policy_subselects := [[]; [t_profiles]];
     policy_body :=
       ForSelect (fun db s r =>
         created_by_me s r
         ||| profile_role_in [role_admin; role_team_member] db s) |};
  {| policy_name := "Authenticated users can create requests";
     policy_to := authenticated;
     policy_subselects := [[]; [t_profiles]];
     policy_body :=
       ForInsert (fun db s r =>
         created_by_me s r
         &&& profile_role_in [role_admin; role_team_member; role_user] db s) |};
  {| policy_name := "Users can update accessible requests";
     policy_to := authenticated;
     policy_subselects := [[]; [t_profiles]];
     policy_body :=
       ForUpdate
         (fun db s r =>
            created_by_me s r
            ||| (assigned_to_me s r &&& profile_role_in [role_team_member] db s)
            ||| profile_role_in [role_admin] db s)
         (fun db s r =>
            created_by_me s r
            ||| (assigned_to_me s r &&& profile_role_in [role_team_member] db s)
            ||| profile_role_in [role_admin] db s) |};
  {| policy_name := "Users can delete accessible requests";
     policy_to := authenticated;
     policy_subselects := [[]; [t_profiles]];
     policy_body :=
       ForDelete (fun db s r =>
         created_by_me s r ||| profile_role_in [role_admin] db s) |}
].

Definition request_comments_policies : list (Policy RequestComment.t) := [
  {| policy_name := "Users can read comments for viewable requests";
     policy_to := authenticated;
     policy_subselects := [[]; [t_requests]; [t_profiles]];
     policy_body :=
       ForSelect (fun db s c =>
         request_viewable (RequestComment.request_id c) db s) |};
  {| policy_name := "Users can insert comments on viewable requests";
     policy_to := authenticated;
     policy_subselects := [[]; [t_requests]; [t_profiles]];
     policy_body :=
       ForInsert (fun db s c =>
         Sql.eq3 (Some (RequestComment.user_id c)) (auth_uid s)
         &&& request_viewable (RequestComment.request_id c) db s) |};
  {| policy_name := "Users can update own comments";
     policy_to := authenticated;
     policy_subselects := [[]];
     policy_body :=
       ForUpdate
         (fun db s c => Sql.eq3 (Some (RequestComment.user_id c)) (auth_uid s))
         (fun db s c => Sql.eq3 (Some (RequestComment.user_id c)) (auth_uid s)) |};
  {| policy_name := "Users can delete accessible comments";
     policy_to := authenticated;
     policy_subselects := [[]; [t_profiles]];
     policy_body :=
       ForDelete (fun db s c =>
         Sql.eq3 (Some (RequestComment.user_id c)) (auth_uid s)
         ||| profile_role_in [role_admin] db s) |}
].

Definition request_activity_policies : list (Policy RequestActivity.t) := [
  {| policy_name := "Users can read activity for viewable requests";
     policy_to := authenticated;
     policy_subselects := [[]; [t_requests]; [t_profiles]];
     policy_body :=
       ForSelect (fun db s a =>
         request_viewable (RequestActivity.request_id a) db s) |};
  {| policy_name := "System can insert activity";
     policy_to := authenticated;
     policy_subselects := [[]];
     policy_body :=
       ForInsert (fun db s a =>
         Sql.eq3 (Some (RequestActivity.user_id a)) (auth_uid s)) |}
].

Definition request_attachments_policies
    : list (Policy RequestAttachment.t) := [
  {| policy_name := "Users can read attachments for viewable requests";
     policy_to := authenticated;
     policy_subselects := [[]; [t_requests]; [t_profiles]];
     policy_body :=
       ForSelect (fun db s a =>
         request_viewable (RequestAttachment.request_id a) db s) |};
  {| policy_name := "Users can insert attachments for editable requests";
     policy_to := authenticated;
     policy_subselects := [[]; [t_requests]; [t_profiles]];
     policy_body :=
       ForInsert (fun db s a =>
         Sql.eq3 (Some (RequestAttachment.uploaded_by a)) (auth_uid s)
         &&& Sql.exists_
               (fun r =>
                  Sql.eq3 (Some (Request.id r))
                          (Some (RequestAttachment.request_id a))
                  &&& (created_by_me s r ||| assigned_to_me s r
                       ||| profile_role_in [role_admin] db s))
               (requests db)) |};
  {| policy_name := "Users can delete accessible attachments";
     policy_to := authenticated;
     policy_subselects := [[]; [t_profiles]];
     policy_body :=
       ForDelete (fun db s a =>
         Sql.eq3 (Some (RequestAttachment.uploaded_by a)) (auth_uid s)
         ||| profile_role_in [role_admin] db s) |}
].

End V2.

(** *** Policies on [profiles] *)

(** [id = auth.uid()] on a profile row. *)
Definition profile_is_me (s : Session) (p : Profile.t) : Sql.tv :=
  Sql.eq3 (Some (Profile.id p)) (auth_uid s).

(** The scalar sub-select [(SELECT role FROM profiles WHERE id =
    auth.uid())], on the rows of [profiles] that the sub-select sees:
    [NULL] when there is no row.  [id] is the primary key, so
    there is at most one row; the error of a sub-select with several rows
    rejects the statement like the [NULL] that stands for it here. *)
Definition own_role (db : Database) (s : Session) : option UserRole :=
  match filter (fun p => Sql.holds (profile_is_me s p) = true) (profiles db)
  with
  | [p] => Some (Profile.role p)
  | _ => None
  end.

(** [role = (SELECT role FROM profiles WHERE id = auth.uid())] *)
Definition role_unchanged (db : Database) (s : Session) (p : Profile.t)
    : Sql.tv :=
  Sql.eq3 (Some (Profile.role p)) (own_role db s).

Module ProfilePolicies.

(** The first migration. *)
Definition read_own : Policy Profile.t :=
  {| policy_name := "Users can read own profile";
     policy_to := authenticated;
     policy_subselects := [];
     policy_body := ForSelect (fun db s p => profile_is_me s p) |}.

Definition read_all_admin : Policy Profile.t :=
  {| policy_name := "Admins can read all profiles";
     policy_to := authenticated;
     policy_subselects := [[t_profiles]];
     policy_body := ForSelect (fun db s p => profile_role_in [role_admin] db s) |}.

Definition update_own : Policy Profile.t :=
  {| policy_name := "Users can update own profile";
     policy_to := authenticated;
     policy_subselects := [[t_profiles]];
     policy_body :=
       ForUpdate (fun db s p => profile_is_me s p)
                 (fun db s p => profile_is_me s p &&& role_unchanged db s p) |}.

Definition update_any_admin : Policy Profile.t :=
  {| policy_name := "Admins can update any profile";
     policy_to := authenticated;
     policy_subselects := [[t_profiles]];
     policy_body :=
       ForUpdate (fun db s p => profile_role_in [role_admin] db s)
                 (fun db s p => profile_role_in [role_admin] db s) |}.

Definition insert_own : Policy Profile.t :=
  {| policy_name := "Users can insert own profile";
     policy_to := authenticated;
     policy_subselects := [];
     policy_body := ForInsert (fun db s p => profile_is_me s p) |}.

Definition v1 : list (Policy Profile.t) :=
  [read_own; read_all_admin; update_own; update_any_admin; insert_own].

(** The second migration drops and recreates the two read policies and the
    insert policy and adds two policies for [anon]; the update policies
    stay. *)
Definition signup_fix : list (Policy Profile.t) := [
  update_own; update_any_admin;
  read_own;
  {| policy_name := "Allow profile read during signup";
     policy_to := anon;
     policy_subselects := [];
     policy_body := ForSelect (fun db s p => Some true) |};
  read_all_admin;
  insert_own;
  {| policy_name := "Allow profile creation during signup";
     policy_to := anon;
     policy_subselects := [];
     policy_body := ForInsert (fun db s p => Some true) |}
].

(** The latest migration drops all seven and creates three. *)
Definition latest : list (Policy Profile.t) := [
  {| policy_name := "Users can read accessible profiles";
     policy_to := authenticated;
     policy_subselects := [[]; [t_profiles]];
     policy_body :=
       ForSelect (fun db s p =>
         profile_is_me s p ||| profile_role_in [role_admin] db s) |};
  {| policy_name := "Users can insert own profile";
     policy_to := authenticated;
     policy_subselects := [[]];
     policy_body := ForInsert (fun db s p => profile_is_me s p) |};
  {| policy_name := "Users can update accessible profiles";
     policy_to := authenticated;
     policy_subselects := [[]; [t_profiles]];
     policy_body :=
       ForUpdate
         (fun db s p =>
            profile_is_me s p ||| profile_role_in [role_admin] db s)
         (fun db s p =>
            (profile_is_me s p &&& role_unchanged db s p)
            ||| profile_role_in [role_admin] db s) |}
].

End ProfilePolicies.

(** ** Statements and their errors *)

Inductive DbError :=
| infinite_recursion            (* 42P17: infinite recursion detected in policy *)
| rls_violation                 (* new row violates row-level security policy *)
| not_null_violation
| foreign_key_violation
| unique_violation
| invalid_text_representation.  (* invalid input value for enum *)

Inductive Result (A : Type) :=
| Ok (a : A)
| Err (e : DbError).
Arguments Ok {A} a.
Arguments Err {A} e.

#[global] Instance Result_ret : MRet Result := fun A a => Ok a.
#[global] Instance Result_bind : MBind Result := fun A B f m =>
  match m with
  | Ok a => f a
  | Err e => Err e
  end.

Definition require (b : bool) (e : DbError) : Result unit :=
  if b then Ok tt else Err e.


(** ** Policies at work

    PostgreSQL adds the conditions of the policies to a statement when it
    rewrites it, before anything of it is executed.  A sub-select inside a
    condition is a query of its own on the table it reads, and gets the
    [SELECT] policies of that table added in turn.  While the rewriter
    works on the sub-selects of the policies of a table it keeps that
    table on a list; when it comes to add policies with sub-selects to a
    table that is on the list it stops with "infinite recursion detected
    in policy for relation" (42P17), whatever the rows are. *)

(** The policies in force on the five tables. *)
Record Policies := {
  on_profiles : list (Policy Profile.t);
  on_requests : list (Policy Request.t);
  on_request_attachments : list (Policy RequestAttachment.t);
  on_request_comments : list (Policy RequestComment.t);
  on_request_activity : list (Policy RequestActivity.t);
}.

(** The policies after each migration that creates some: the first two
    migrations together, the sign-up fix, and the latest migration. *)
Module Migrations.
Definition first : Policies :=
  {| on_profiles := ProfilePolicies.v1;
     on_requests := V1.requests_policies;
     on_request_attachments := V1.request_attachments_policies;
     on_request_comments := V1.request_comments_policies;
     on_request_activity := V1.request_activity_policies |}.

Definition signup_fix : Policies :=
  {| on_profiles := ProfilePolicies.signup_fix;
     on_requests := V1.requests_policies;
     on_request_attachments := V1.request_attachments_policies;
     on_request_comments := V1.request_comments_policies;
     on_request_activity := V1.request_activity_policies |}.

Definition latest : Policies :=
  {| on_profiles := ProfilePolicies.latest;
     on_requests := V2.requests_policies;
     on_request_attachments := V2.request_attachments_policies;
     on_request_comments := V2.request_comments_policies;
     on_request_activity := V2.request_activity_policies |}.
End Migrations.

Definition RowOf (t : Table) : Type :=
  match t with
  | t_profiles => Profile.t
  | t_requests => Request.t
  | t_request_attachments => RequestAttachment.t
  | t_request_comments => RequestComment.t
  | t_request_activity => RequestActivity.t
  end.

Definition policies_on (P : Policies) (t : Table) : list (Policy (RowOf t)) :=
  match t with
  | t_profiles => on_profiles P
  | t_requests => on_requests P
  | t_request_attachments => on_request_attachments P
  | t_request_comments => on_request_comments P
  | t_request_activity => on_request_activity P
  end.

(** A policy is added for the role it is written [TO] and for its
    command. *)
Definition applicable {Row} (role : PgRole) (cmds : list Command)
    (p : Policy Row) : bool :=
  bool_decide (policy_to p = role) && bool_decide (policy_command p ∈ cmds).

(** The sub-selects of the policies that are added. *)
Definition sublinks {Row} (role : PgRole) (cmds : list Command)
    (pols : list (Policy Row)) : list (list Table) :=
  flat_map (fun p => if applicable role cmds p then policy_subselects p
                     else [])
           pols.

(** The walk of the rewriter over the policies added to table [t] for the
    commands [cmds], with the tables [active] being worked on: [false]
    is the recursion error.  Every level puts one more table on [active]
    and a table on [active] ends the walk, so it is never deeper than the
    number of tables; [fuel] is that bound. *)
Fixpoint expand_policies (fuel : nat) (P : Policies) (role : PgRole)
    (active : list Table) (cmds : list Command) (t : Table) : bool :=
  match sublinks role cmds (policies_on P t) with
  | [] => true
  | subs =>
      if bool_decide (t ∈ active) then false
      else
        match fuel with
        | O => false
        | S fuel =>
            forallb (expand_policies fuel P role (active ++ [t]) [SELECT])
                    (concat subs)
        end
  end.

(** Rewriting a statement of session [s] on table [t] that needs the
    policies of the commands [cmds]. *)
Definition rls_expand (P : Policies) (s : Session) (cmds : list Command)
    (t : Table) : Result unit :=
  require (expand_policies (length all_tables) P (pg_role s) [] cmds t)
          infinite_recursion.

(** The rows of [rows] that the [SELECT] policies [pols] show, their own
    sub-selects seeing [inner]. *)
Definition shown {Row} (pols : list (Policy Row)) (inner : Database)
    (s : Session) (rows : list Row) : list Row :=
  filter (fun r => rls_using pols SELECT inner s r = true) rows.

(** What a sub-select of a policy sees: each table through its [SELECT]
    policies, whose sub-selects see the tables the same way, [depth]
    levels deep.  A statement that the rewriter lets through nests its
    sub-selects less deep than there are tables, and the innermost
    policies read no table, so the rows at depth 0 are never read. *)
Fixpoint rls_view (depth : nat) (P : Policies) (s : Session) (db : Database)
    : Database :=
  match depth with
  | O => db
  | S depth =>
      let inner := rls_view depth P s db in
      {| profiles := shown (on_profiles P) inner s (profiles db);
         requests := shown (on_requests P) inner s (requests db);
         request_attachments :=
           shown (on_request_attachments P) inner s (request_attachments db);
         request_comments :=
           shown (on_request_comments P) inner s (request_comments db);
         request_activity :=
           shown (on_request_activity P) inner s (request_activity db) |}
  end.

Definition seen (P : Policies) (s : Session) (db : Database) : Database :=
  rls_view (length all_tables) P s db.

(** The decision of the policies of table [t] on a row, for one command:
    [USING] for a row that is there, [WITH CHECK] for a new row. *)
Definition using_decision (P : Policies) (t : Table) (c : Command)
    (db : Database) (s : Session) (row : RowOf t) : Result bool :=
  _ ← rls_expand P s [c] t;
  Ok (rls_using (policies_on P t) c (seen P s db) s row).

Definition check_decision (P : Policies) (t : Table) (c : Command)
    (db : Database) (s : Session) (row : RowOf t) : Result bool :=
  _ ← rls_expand P s [c] t;
  Ok (rls_check (policies_on P t) c (seen P s db) s row).

(** The migrations of the repository have all run: the policies of the
    latest one are in force. *)
Definition visible (s : Session) (db : Database) : Database :=
  seen Migrations.latest s db.

(** What the engine supplies while a statement runs: [now()], the uuid that
    [gen_random_uuid()] draws for the row being inserted, and the text form
    of a [timestamptz], which depends on the session settings. *)
Record Env := {
  now : Z;
  gen_random_uuid : string;
  timestamptz_out : Z -> string;
}.

Definition set_profiles (f : list Profile.t -> list Profile.t)
    (db : Database) : Database :=
  {| profiles := f (profiles db);
     requests := requests db;
     request_attachments := request_attachments db;
     request_comments := request_comments db;
     request_activity := request_activity db |}.

Definition set_requests (f : list Request.t -> list Request.t)
    (db : Database) : Database :=
  {| profiles := profiles db;
     requests := f (requests db);
     request_attachments := request_attachments db;
     request_comments := request_comments db;
     request_activity := request_activity db |}.

Definition set_request_attachments
    (f : list RequestAttachment.t -> list RequestAttachment.t)
    (db : Database) : Database :=
  {| profiles := profiles db;
     requests := requests db;
     request_attachments := f (request_attachments db);
     request_comments := request_comments db;
     request_activity := request_activity db |}.

Definition set_request_comments
    (f : list RequestComment.t -> list RequestComment.t)
    (db : Database) : Database :=
  {| profiles := profiles db;
     requests := requests db;
     request_attachments := request_attachments db;
     request_comments := f (request_comments db);
     request_activity := request_activity db |}.

Definition set_request_activity
    (f : list RequestActivity.t -> list RequestActivity.t)
    (db : Database) : Database :=
  {| profiles := profiles db;
     requests := requests db;
     request_attachments := request_attachments db;
     request_comments := request_comments db;
     request_activity := f (request_activity db) |}.

(** Foreign keys into [profiles(id)] and [requests(id)]. *)
Definition profile_exists (db : Database) (id : string) : bool :=
  existsb (fun p => bool_decide (Profile.id p = id)) (profiles db).
Definition request_exists (db : Database) (id : string) : bool :=
  existsb (fun r => bool_decide (Request.id r = id)) (requests db).

(** A nullable foreign key is checked only when it is not [NULL]. *)
Definition profile_exists_opt (db : Database) (id : option string) : bool :=
  match id with
  | Some i => profile_exists db i
  | None => true
  end.

(** ** Triggers

    The trigger functions are [SECURITY DEFINER]: their inserts run as the
    owner of the tables and no policy is consulted; the column constraints
    of [request_activity] still are. *)

(** [INSERT INTO request_activity (request_id, user_id, activity_type,
    old_value, new_value) VALUES (...)]: [request_id] and [user_id] are
    [NOT NULL] foreign keys. *)
Definition insert_request_activity (request_id : string)
    (user_id : option string) (activity_type : string)
    (old_value new_value : option string) (db : Database) : Result Database :=
  match user_id with
  | None => Err not_null_violation
  | Some uid =>
      _ ← require (request_exists db request_id) foreign_key_violation;
      _ ← require (profile_exists db uid) foreign_key_violation;
      Ok (set_request_activity
            (fun rows => rows ++ [RequestActivity.mk request_id uid
                                    activity_type old_value new_value])
            db)
  end.

(** [handle_updated_at], [BEFORE UPDATE ON requests]. *)
Definition handle_updated_at (env : Env) (NEW : Request.t) : Request.t :=
  Request.mk (Request.id NEW) (Request.title NEW) (Request.description NEW)
    (Request.status NEW) (Request.priority NEW) (Request.due_date NEW)
    (Request.created_by NEW) (Request.assigned_to NEW)
    (Request.created_at NEW) (now env).

(** [log_request_created], [AFTER INSERT ON requests]. *)
Definition log_request_created (NEW : Request.t) (db : Database)
    : Result Database :=
  insert_request_activity (Request.id NEW) (Some (Request.created_by NEW))
    "request_created" None (Some (Request.title NEW)) db.

(** [log_request_status_change], [AFTER UPDATE ON requests]. *)
Definition log_request_status_change (env : Env) (s : Session)
    (OLD NEW : Request.t) (db : Database) : Result Database :=
  db ← (if Sql.is_distinct_from (Some (Request.status OLD))
                                (Some (Request.status NEW))
        then insert_request_activity (Request.id NEW) (auth_uid s)
               "status_changed"
               (Some (request_status_out (Request.status OLD)))
               (Some (request_status_out (Request.status NEW))) db
        else Ok db);
  db ← (if Sql.is_distinct_from (Some (Request.priority OLD))
                                (Some (Request.priority NEW))
        then insert_request_activity (Request.id NEW) (auth_uid s)
               "priority_changed"
               (Some (request_priority_out (Request.priority OLD)))
               (Some (request_priority_out (Request.priority NEW))) db
        else Ok db);
  db ← (if Sql.is_distinct_from (Request.assigned_to OLD)
                                (Request.assigned_to NEW)
        then insert_request_activity (Request.id NEW) (auth_uid s)
               "assignment_changed"
               (Request.assigned_to OLD) (Request.assigned_to NEW) db
        else Ok db);
  db ← (if Sql.is_distinct_from (Request.due_date OLD) (Request.due_date NEW)
        then insert_request_activity (Request.id NEW) (auth_uid s)
               "due_date_changed"
               (timestamptz_out env <$> Request.due_date OLD)
               (timestamptz_out env <$> Request.due_date NEW) db
        else Ok db);
  Ok db.

(** [log_file_upload], [AFTER INSERT ON request_attachments]. *)
Definition log_file_upload (NEW : RequestAttachment.t) (db : Database)
    : Result Database :=
  insert_request_activity (RequestAttachment.request_id NEW)
    (Some (RequestAttachment.uploaded_by NEW))
    "file_uploaded" None (Some (RequestAttachment.filename NEW)) db.

(** ** The statements the client sends

    Enum columns travel as text and are cast by the database. *)

Module RequestInsert.
Record t := mk {
  title : string;
  description : option string;
  priority : string;
  status : string;
  due_date : option Z;
  created_by : string;
  assigned_to : option string;
}.
End RequestInsert.

(** [Partial<...>]: an absent key is [None]; a nullable column that is
    present holds [Some None] for [null]. *)
Module RequestUpdate.
Record t := mk {
  title : option string;
  description : option (option string);
  status : option string;
  priority : option string;
  due_date : option (option Z);
  created_by : option string;
  assigned_to : option (option string);
}.
Definition empty : t := mk None None None None None None None.
End RequestUpdate.

Module CommentInsert.
Record t := mk {
  request_id : string;
  user_id : string;
  comment_text : string;
}.
End CommentInsert.

Module AttachmentInsert.
Record t := mk {
  request_id : string;
  file_url : string;
  filename : string;
  file_size : option Z;
  mime_type : option string;
  uploaded_by : string;
}.
End AttachmentInsert.

Inductive Statement :=
| SelectFrom (t : Table)
| InsertRequest (p : RequestInsert.t)
| UpdateRequest (id : string) (p : RequestUpdate.t)
| DeleteRequest (id : string)
| InsertComment (p : CommentInsert.t)
| InsertAttachment (p : AttachmentInsert.t)
| InsertActivity (a : RequestActivity.t)
| DeleteActivity (request_id : string).

Definition statement_table (st : Statement) : Table :=
  match st with
  | SelectFrom t => t
  | InsertRequest _ | UpdateRequest _ _ | DeleteRequest _ => t_requests
  | InsertComment _ => t_request_comments
  | InsertAttachment _ => t_request_attachments
  | InsertActivity _ | DeleteActivity _ => t_request_activity
  end.


(** A text cast to an enum column. *)
Definition cast {A} (parse : string -> option A) (t : string) : Result A :=
  match parse t with
  | Some a => Ok a
  | None => Err invalid_text_representation
  end.

(** What follows is the execution of a statement that the rewriter has
    let through: see [exec]. *)

(** [INSERT INTO requests (...) VALUES (...) RETURNING *], with its
    [AFTER INSERT] trigger.  The form reads the row back with [.select()],
    so the new row has to pass the [SELECT] policies too. *)
Definition insert_request (env : Env) (s : Session) (p : RequestInsert.t)
    (db : Database) : Result Database :=
  status ← cast request_status_in (RequestInsert.status p);
  priority ← cast request_priority_in (RequestInsert.priority p);
  let NEW :=
    Request.mk (gen_random_uuid env) (RequestInsert.title p)
      (RequestInsert.description p) status priority
      (RequestInsert.due_date p) (RequestInsert.created_by p)
      (RequestInsert.assigned_to p) (now env) (now env) in
  _ ← require (rls_check V2.requests_policies INSERT (visible s db) s NEW)
        rls_violation;
  _ ← require (rls_using V2.requests_policies SELECT (visible s db) s NEW)
        rls_violation;
  _ ← require (negb (request_exists db (Request.id NEW))) unique_violation;
  _ ← require (profile_exists db (Request.created_by NEW))
        foreign_key_violation;
  _ ← require (profile_exists_opt db (Request.assigned_to NEW))
        foreign_key_violation;
  log_request_created NEW (set_requests (fun rows => rows ++ [NEW]) db).

(** The [SET] list of an [UPDATE requests] applied to a row. *)
Definition apply_update (p : RequestUpdate.t) (r : Request.t)
    : Result Request.t :=
  status ← match RequestUpdate.status p with
           | Some t => cast request_status_in t
           | None => Ok (Request.status r)
           end;
  priority ← match RequestUpdate.priority p with
             | Some t => cast request_priority_in t
             | None => Ok (Request.priority r)
             end;
  Ok (Request.mk (Request.id r)
        (default (Request.title r) (RequestUpdate.title p))
        (default (Request.description r) (RequestUpdate.description p))
        status priority
        (default (Request.due_date r) (RequestUpdate.due_date p))
        (default (Request.created_by r) (RequestUpdate.created_by p))
        (default (Request.assigned_to r) (RequestUpdate.assigned_to p))
        (Request.created_at r) (Request.updated_at r)).

(** The rows an [UPDATE] or [DELETE ... WHERE id = $1] touches: the [WHERE]
    clause reads the row, so the [SELECT] policy applies together with the
    policy of the command. *)
Definition request_target (c : Command) (s : Session) (id : string)
    (db : Database) (r : Request.t) : bool :=
  bool_decide (Request.id r = id)
  && rls_using V2.requests_policies SELECT (visible s db) s r
  && rls_using V2.requests_policies c (visible s db) s r.

Definition request_targets (c : Command) (s : Session) (id : string)
    (db : Database) : list Request.t :=
  filter (fun r => request_target c s id db r = true) (requests db).

Definition replace_request (NEW : Request.t) (rows : list Request.t)
    : list Request.t :=
  (fun r => if bool_decide (Request.id r = Request.id NEW) then NEW else r)
    <$> rows.

(** One row of an [UPDATE requests]: the [BEFORE] trigger, the [WITH CHECK]
    of the policies (evaluated on the snapshot [db0] of the statement), the
    foreign keys, then the [AFTER] trigger. *)
Definition update_request_row (env : Env) (s : Session) (p : RequestUpdate.t)
    (db0 : Database) (OLD : Request.t) (db : Database) : Result Database :=
  NEW ← apply_update p OLD;
  let NEW := handle_updated_at env NEW in
  _ ← require (rls_check V2.requests_policies UPDATE (visible s db0) s NEW)
        rls_violation;
  _ ← require (profile_exists db (Request.created_by NEW))
        foreign_key_violation;
  _ ← require (profile_exists_opt db (Request.assigned_to NEW))
        foreign_key_violation;
  log_request_status_change env s OLD NEW
    (set_requests (replace_request NEW) db).

(** [UPDATE requests SET ... WHERE id = $1].  No matching row is not an
    error. *)
Definition update_request (env : Env) (s : Session) (id : string)
    (p : RequestUpdate.t) (db : Database) : Result Database :=
  foldl (fun acc OLD => db' ← acc; update_request_row env s p db OLD db')
        (Ok db) (request_targets UPDATE s id db).

(** [DELETE FROM requests WHERE id = $1]; the three tables that reference
    [requests(id)] do so [ON DELETE CASCADE]. *)
Definition delete_request (s : Session) (id : string) (db : Database)
    : Result Database :=
  let gone := Request.id <$> request_targets DELETE s id db in
  Ok {| profiles := profiles db;
        requests :=
          filter (fun r => request_target DELETE s id db r = false)
                 (requests db);
        request_attachments :=
          filter (fun a => RequestAttachment.request_id a ∉ gone)
                 (request_attachments db);
        request_comments :=
          filter (fun c => RequestComment.request_id c ∉ gone)
                 (request_comments db);
        request_activity :=
          filter (fun a => RequestActivity.request_id a ∉ gone)
                 (request_activity db) |}.

(** [INSERT INTO request_comments (request_id, user_id, comment_text)]. *)
Definition insert_comment (env : Env) (s : Session) (p : CommentInsert.t)
    (db : Database) : Result Database :=
  let NEW :=
    RequestComment.mk (gen_random_uuid env) (CommentInsert.request_id p)
      (CommentInsert.user_id p) (CommentInsert.comment_text p)
      (now env) (now env) in
  _ ← require (rls_check V2.request_comments_policies INSERT (visible s db)
                 s NEW) rls_violation;
  _ ← require (negb (existsb (fun c => bool_decide
                       (RequestComment.id c = RequestComment.id NEW))
                     (request_comments db))) unique_violation;
  _ ← require (request_exists db (RequestComment.request_id NEW))
        foreign_key_violation;
  _ ← require (profile_exists db (RequestComment.user_id NEW))
        foreign_key_violation;
  Ok (set_request_comments (fun rows => rows ++ [NEW]) db).

(** [INSERT INTO request_attachments (...)], with its [AFTER INSERT]
    trigger. *)
Definition insert_attachment (env : Env) (s : Session)
    (p : AttachmentInsert.t) (db : Database) : Result Database :=
  let NEW :=
    RequestAttachment.mk (gen_random_uuid env)
      (AttachmentInsert.request_id p) (AttachmentInsert.file_url p)
      (AttachmentInsert.filename p) (AttachmentInsert.file_size p)
      (AttachmentInsert.mime_type p) (AttachmentInsert.uploaded_by p)
      (now env) in
  _ ← require (rls_check V2.request_attachments_policies INSERT
                 (visible s db) s NEW) rls_violation;
  _ ← require (negb (existsb (fun a => bool_decide
                       (RequestAttachment.id a = RequestAttachment.id NEW))
                     (request_attachments db))) unique_violation;
  _ ← require (request_exists db (RequestAttachment.request_id NEW))
        foreign_key_violation;
  _ ← require (profile_exists db (RequestAttachment.uploaded_by NEW))
        foreign_key_violation;
  log_file_upload NEW (set_request_attachments (fun rows => rows ++ [NEW]) db).

(** [INSERT INTO request_activity (...)] sent by a client, not by a
    trigger, and without [RETURNING]: the [INSERT] policy of the table
    applies. *)
Definition insert_activity (s : Session) (a : RequestActivity.t)
    (db : Database) : Result Database :=
  _ ← require (rls_check V2.request_activity_policies INSERT (visible s db)
                 s a) rls_violation;
  _ ← require (request_exists db (RequestActivity.request_id a))
        foreign_key_violation;
  _ ← require (profile_exists db (RequestActivity.user_id a))
        foreign_key_violation;
  Ok (set_request_activity (fun rows => rows ++ [a]) db).

(** [DELETE FROM request_activity WHERE request_id = $1] sent by a client:
    the rows that pass the policies are removed. *)
Definition delete_activity (s : Session) (request_id : string)
    (db : Database) : Result Database :=
  Ok (set_request_activity
        (filter (fun a =>
           (bool_decide (RequestActivity.request_id a = request_id)
            && rls_using V2.request_activity_policies SELECT (visible s db)
                 s a
            && rls_using V2.request_activity_policies DELETE (visible s db)
                 s a) = false))
        db).

(** The policies the rewriter adds to a statement: those of its command,
    and the [SELECT] policies too when the statement reads the rows it
    works on (its [WHERE] clause names a column) or returns rows
    ([.select()] after a write). *)
Definition statement_commands (st : Statement) : list Command :=
  match st with
  | SelectFrom _ => [SELECT]
  | InsertRequest _ => [INSERT; SELECT]
  | UpdateRequest _ _ => [UPDATE; SELECT]
  | DeleteRequest _ | DeleteActivity _ => [DELETE; SELECT]
  | InsertComment _ | InsertAttachment _ | InsertActivity _ => [INSERT]
  end.

(** The execution of a rewritten statement. *)
Definition run (env : Env) (s : Session) (st : Statement) (db : Database)
    : Result Database :=
  match st with
  | SelectFrom _ => Ok db
  | InsertRequest p => insert_request env s p db
  | UpdateRequest id p => update_request env s id p db
  | DeleteRequest id => delete_request s id db
  | InsertComment p => insert_comment env s p db
  | InsertAttachment p => insert_attachment env s p db
  | InsertActivity a => insert_activity s a db
  | DeleteActivity request_id => delete_activity s request_id db
  end.

(** A statement of a client on the database: it is rewritten with the
    policies in force, then executed; a failing statement leaves no
    trace. *)
Definition exec (env : Env) (s : Session) (st : Statement) (db : Database)
    : Result Database :=
  _ ← rls_expand Migrations.latest s (statement_commands st)
        (statement_table st);
  run env s st db.

(** ** The request detail page: [src/app/reque/request/[id]/page.tsx] *)



Section Handlers.
(** [String.prototype.trim]. *)
Variable trim : string -> string.





(** *** The new-request page *)

Record NewRequestForm := {
  form_title : string;
  form_description : string;
  form_priority : string;
  form_dueDate : option Z;
}.

(** [description.trim() || null] *)
Definition or_null (t : string) : option string :=
  if bool_decide (t = EmptyString) then None else Some t.

(** [NewRequestContent] returns the "Access Denied" card, before it
    creates [handleSubmit], when the hook does not allow creating
    requests: without the form there is nothing to submit. *)
Definition handleSubmit (auth : AuthContext) (f : NewRequestForm)
    : list Statement :=
  if negb (canCreateRequest (usePermissions auth)) then []
  else
    match user auth with
    | None => []
    | Some u =>
        if bool_decide (trim (form_title f) = EmptyString) then []
        else
          [InsertRequest
             (RequestInsert.mk (trim (form_title f))
                (or_null (trim (form_description f)))
                (form_priority f) "new" (form_dueDate f) (User.id u) None)]
    end.
End Handlers.


(** The [useState] initial values of the form. *)
Definition initial_form : NewRequestForm :=
  {| form_title := EmptyString; form_description := EmptyString;
     form_priority := "normal"; form_dueDate := None |}.

(** The [<SelectItem value=...>] lists of the pages. *)
Definition status_items : list string :=
  ["new"; "in_progress"; "under_review"; "completed"; "rejected"].
Definition priority_items : list string := ["normal"; "high"; "urgent"].

Inductive FormEvent :=
| SetTitle (v : string)
| SetDescription (v : string)
| SetPriority (v : string)
| SetDueDate (v : option Z).

(** The priority [Select] reports one of its items; the other inputs report
    any value. *)
Definition form_event (f : NewRequestForm) (e : FormEvent)
    : option NewRequestForm :=
  match e with
  | SetTitle v =>
      Some {| form_title := v; form_description := form_description f;
              form_priority := form_priority f;
              form_dueDate := form_dueDate f |}
  | SetDescription v =>
      Some {| form_title := form_title f; form_description := v;
              form_priority := form_priority f;
              form_dueDate := form_dueDate f |}
  | SetPriority v =>
      if bool_decide (v ∈ priority_items)
      then Some {| form_title := form_title f;
                   form_description := form_description f;
                   form_priority := v; form_dueDate := form_dueDate f |}
      else None
  | SetDueDate v =>
      Some {| form_title := form_title f;
              form_description := form_description f;
              form_priority := form_priority f; form_dueDate := v |}
  end.

Inductive form_reachable : NewRequestForm -> Prop :=
| form_init : form_reachable initial_form
| form_next f e f' :
    form_reachable f -> form_event f e = Some f' -> form_reachable f'.

(** *** What the detail page renders *)










(** The statements of a handler, sent in order until one fails. *)
Definition send (env : Env) (s : Session) (sts : list Statement)
    (db : Database) : Result Database :=
  foldl (fun acc st => db' ← acc; exec env s st db') (Ok db) sts.


(** ** Sign-up: [handle_new_user], [AFTER INSERT ON auth.users] *)

(** A [jsonb] value as far as [->>] tells values apart: a number, an array
    and an object carry their text. *)
Inductive Json :=
| JNull
| JBool (b : bool)
| JNumber (text : string)
| JString (s : string)
| JNested (text : string).

(** The text [->>] returns for a value; JSON [null] gives SQL [NULL]. *)
Definition json_text (j : Json) : option string :=
  match j with
  | JNull => None
  | JBool b => Some (if b then "true" else "false")
  | JNumber t | JString t | JNested t => Some t
  end.

Module AuthUser.
(** [raw_user_meta_data] is [None] when the column is [NULL] or does not
    hold an object. *)
Record t := mk {
  id : string;
  email : option string;
  raw_user_meta_data : option (gmap string Json);
}.
End AuthUser.

(** [new.raw_user_meta_data ->> key] *)
Definition meta_text (new : AuthUser.t) (key : string) : option string :=
  m ← AuthUser.raw_user_meta_data new; j ← m !! key; json_text j.

(** [INSERT INTO public.profiles (id, email, full_name, role) VALUES ...],
    with [ON CONFLICT (id) DO NOTHING] when [do_nothing] is set.  [email] is
    [UNIQUE NOT NULL]; a conflict on [id] is looked for first. *)
Definition insert_profile (do_nothing : bool) (env : Env) (id : string)
    (email : option string) (full_name : option string) (role : UserRole)
    (db : Database) : Result Database :=
  match email with
  | None => Err not_null_violation
  | Some email =>
      if profile_exists db id then
        if do_nothing then Ok db else Err unique_violation
      else
        _ ← require (negb (existsb (fun p => bool_decide (Profile.email p = email))
                             (profiles db))) unique_violation;
        Ok (set_profiles
              (fun rows => rows ++ [Profile.mk id email full_name None role
                                      (now env) (now env)])
              db)
  end.

(** [COALESCE((new.raw_user_meta_data->>'role')::user_role, 'user')]: the
    cast of [NULL] is [NULL]; the cast of a text that is no label fails. *)
Definition signup_role (new : AuthUser.t) : Result UserRole :=
  match meta_text new "role" with
  | None => Ok role_user
  | Some t => cast user_role_in t
  end.

(** The [INSERT] statement shared by the versions of the function. *)
Definition handle_new_user_insert (do_nothing : bool) (env : Env)
    (new : AuthUser.t) (db : Database) : Result Database :=
  role ← signup_role new;
  insert_profile do_nothing env (AuthUser.id new) (AuthUser.email new)
    (Some (default EmptyString (meta_text new "full_name"))) role db.

Module Signup.
(** The first migration: a plain [INSERT], then [RETURN new]. *)
Definition handle_new_user_v1 (env : Env) (new : AuthUser.t)
    (db : Database) : Result Database :=
  handle_new_user_insert false env new db.

(** The later migrations: [ON CONFLICT (id) DO NOTHING] and
    [EXCEPTION WHEN others THEN RAISE WARNING ...; RETURN new]: the
    effects of the block are rolled back and the function returns. *)
Definition handle_new_user (env : Env) (new : AuthUser.t)
    (db : Database) : Result Database :=
  match handle_new_user_insert true env new db with
  | Ok db' => Ok db'
  | Err _ => Ok db
  end.

(** [INSERT INTO auth.users] followed by the row trigger; an error of the
    trigger aborts the insert. *)
Definition create_auth_user
    (trigger : Env -> AuthUser.t -> Database -> Result Database)
    (env : Env) (new : AuthUser.t)
    (st : list AuthUser.t * Database) : Result (list AuthUser.t * Database) :=
  _ ← require (negb (existsb (fun u => bool_decide
                       (AuthUser.id u = AuthUser.id new)) st.1))
        unique_violation;
  db ← trigger env new st.2;
  Ok (st.1 ++ [new], db).
End Signup.

(** ** Definitions that follow the wording of the specification *)

(** The audit records of one update, one per changed field among status,
    priority, assignee and due date, in that order: the type of the change,
    the prior value, the new value and the acting user. *)
Definition change_log (env : Env) (actor : string) (OLD NEW : Request.t)
    : list RequestActivity.t :=
  (if bool_decide (Request.status OLD = Request.status NEW) then []
   else [RequestActivity.mk (Request.id NEW) actor "status_changed"
           (Some (request_status_out (Request.status OLD)))
           (Some (request_status_out (Request.status NEW)))])
  ++ (if bool_decide (Request.priority OLD = Request.priority NEW) then []
      else [RequestActivity.mk (Request.id NEW) actor "priority_changed"
              (Some (request_priority_out (Request.priority OLD)))
              (Some (request_priority_out (Request.priority NEW)))])
  ++ (if bool_decide (Request.assigned_to OLD = Request.assigned_to NEW)
      then []
      else [RequestActivity.mk (Request.id NEW) actor "assignment_changed"
              (Request.assigned_to OLD) (Request.assigned_to NEW)])
  ++ (if bool_decide (Request.due_date OLD = Request.due_date NEW) then []
      else [RequestActivity.mk (Request.id NEW) actor "due_date_changed"
              (timestamptz_out env <$> Request.due_date OLD)
              (timestamptz_out env <$> Request.due_date NEW)]).

(** The role of the profile of a new user: the role field of the signup
    metadata when it is present and a label of [user_role], and 'user'
    otherwise. *)
Definition claimed_signup_role (new : AuthUser.t) : UserRole :=
  default role_user (meta_text new "role" ≫= user_role_in).

(** The records the three audit triggers write. *)
Inductive trigger_record : RequestActivity.t -> Prop :=
| record_request_created (NEW : Request.t) :
    trigger_record
      (RequestActivity.mk (Request.id NEW) (Request.created_by NEW)
         "request_created" None (Some (Request.title NEW)))
| record_request_change env actor OLD NEW a :
    a ∈ change_log env actor OLD NEW -> trigger_record a
| record_file_upload (NEW : RequestAttachment.t) :
    trigger_record
      (RequestActivity.mk (RequestAttachment.request_id NEW)
         (RequestAttachment.uploaded_by NEW)
         "file_uploaded" None (Some (RequestAttachment.filename NEW))).


(** The client and the server look at the same signed-in user: the session
    carries the id of [user], and [profile] is the row of that id. *)
Record in_sync (db : Database) (s : Session) (auth : AuthContext) (u : User.t)
    : Prop := {
  sync_user : user auth = Some u;
  sync_role : pg_role s = authenticated;
  sync_uid : auth_uid s = Some (User.id u);
  sync_profile :
    filter (fun p => Profile.id p = User.id u) (profiles db)
    = option_list (profile auth);
}.

(** ** Sample data for the concrete checks *)

Module Ex.
Definition profile_of (id : string) (r : UserRole) : Profile.t :=
  Profile.mk id (id +:+ "@example.org") None None r 0 0.

Definition auth_of (id : string) (r : UserRole) : AuthContext :=
  {| profile := Some (profile_of id r);
     user := Some (User.mk id (Some (id +:+ "@example.org"))) |}.

(** A request of [owner], not assigned. *)
Definition request_of (id owner : string) : Request.t :=
  Request.mk id "Printer is broken" None status_new priority_normal None
    owner None 10 10.

Definition env0 : Env :=
  {| now := 20; gen_random_uuid := "r2";
     timestamptz_out :=
       fun t => if bool_decide (t = 0) then "epoch" else "later" |}.

(** One profile per role; [gina] is a guest who owns request [r1], as
    after a demotion by an admin. *)
Definition db0 : Database :=
  {| profiles := [profile_of "ann" role_admin; profile_of "tom" role_team_member;
                  profile_of "uma" role_user; profile_of "gina" role_guest];
     requests := [request_of "r0" "uma"; request_of "r1" "gina"];
     request_attachments := [];
     request_comments := [];
     request_activity :=
       [RequestActivity.mk "r0" "uma" "request_created" None
          (Some "Printer is broken");
        RequestActivity.mk "r1" "gina" "request_created" None
          (Some "Printer is broken")] |}.

Definition comment_by (uid request_id : string) : RequestComment.t :=
  RequestComment.mk "c0" request_id uid "hello" 20 20.


(** A sign-up whose metadata asks for [role]. *)
Definition signup_as (id : string) (role : Json) : AuthUser.t :=
  AuthUser.mk id (Some (id +:+ "@example.org"))
    (Some {[ "role" := role ]}).

(** The context of [uma] with other values in the fields the hook does not
    read. *)
Definition uma_again : AuthContext :=
  {| profile := Some (Profile.mk "other" "x@y.z" (Some "Uma") None
                        role_user 5 7);
     user := Some (User.mk "uma" None) |}.

(** A signed-out context that still holds an admin profile. *)
Definition stale_auth : AuthContext :=
  {| profile := Some (profile_of "ann" role_admin); user := None |}.
End Ex.

(** * The rest of the code *)


(** ** Texts of the detail page *)

(** The rest of [s] after its first [n] characters. *)
Fixpoint string_drop (n : nat) (s : string) : string :=
  match n, s with
  | O, _ => s
  | S n, String _ s => string_drop n s
  | S _, EmptyString => EmptyString
  end.

(** [s.replace(pat, rep)] with a string pattern and a replacement without
    [$]: the first occurrence of [pat] only. *)
Fixpoint replace (pat rep s : string) : string :=
  if String.prefix pat s then rep +:+ string_drop (String.length pat) s
  else match s with
       | EmptyString => EmptyString
       | String c s => String c (replace pat rep s)
       end.

(** [pat] occurs in [s]. *)
Fixpoint occurs (pat s : string) : bool :=
  String.prefix pat s
  || match s with
     | EmptyString => false
     | String _ s => occurs pat s
     end.

(** [request.status.replace('_', ' ')] *)
Definition status_badge (r : Request.t) : string :=
  replace "_" " " (request_status_out (Request.status r)).

(** ** What [fetchRequestDetails] loads *)

(** [.single()]: the row when exactly one row comes back, else [null]. *)
Definition single {A} (rows : list A) : option A :=
  match rows with
  | [r] => Some r
  | _ => None
  end.

Definition newer_comment_first (c1 c2 : RequestComment.t) : Prop :=
  (RequestComment.created_at c2 <= RequestComment.created_at c1)%Z.

#[global] Instance newer_comment_first_dec : RelDecision newer_comment_first.
Proof. intros c1 c2. unfold newer_comment_first. apply Z_le_dec. Defined.

(** The rows of a table. *)
Definition table_rows (db : Database) (t : Table) : list (RowOf t) :=
  match t with
  | t_profiles => profiles db
  | t_requests => requests db
  | t_request_attachments => request_attachments db
  | t_request_comments => request_comments db
  | t_request_activity => request_activity db
  end.

(** [supabase.from(t).select('*')] with its filters [cond]: the query is
    rewritten with the [SELECT] policies of the table, and then returns
    the rows that the policies show and that pass the filters. *)
Definition select_from (t : Table) (s : Session) (db : Database)
    (cond : RowOf t -> bool) : Result (list (RowOf t)) :=
  _ ← rls_expand Migrations.latest s [SELECT] t;
  Ok (filter (fun r =>
        cond r
        && rls_using (policies_on Migrations.latest t) SELECT (visible s db)
             s r = true)
        (table_rows db t)).

(** [data || []]: [data] is [null] when the query failed. *)
Definition data_or_empty {A} (r : Result (list A)) : list A :=
  match r with
  | Ok rows => rows
  | Err _ => []
  end.

(** [.eq('id', requestId).single()]: [requestData] is [null] when the
    query fails or returns no row.  A [requestId] that is no uuid makes the
    query fail, which gives that [null] as well. *)
Definition select_request (s : Session) (db : Database) (requestId : string)
    : option Request.t :=
  single (data_or_empty
            (select_from t_requests s db
               (fun r => bool_decide (Request.id r = requestId)))).

(** [commentsData || []], newest first. *)
Definition select_comments (s : Session) (db : Database) (requestId : string)
    : list RequestComment.t :=
  merge_sort newer_comment_first
    (data_or_empty
       (select_from t_request_comments s db
          (fun c => bool_decide (RequestComment.request_id c = requestId)))).

(** [activityData || []].  The audit records carry the time of their
    insert, so newest first is the table backwards. *)
Definition select_activity (s : Session) (db : Database) (requestId : string)
    : list RequestActivity.t :=
  reverse
    (data_or_empty
       (select_from t_request_activity s db
          (fun a => bool_decide (RequestActivity.request_id a = requestId)))).

(** [supabase.from('profiles').select('*').in('id', ids)]; [forEach] runs
    on [profilesData?], so a failed query leaves the map empty. *)
Definition select_profiles_in (s : Session) (db : Database)
    (ids : list string) : list Profile.t :=
  data_or_empty
    (select_from t_profiles s db (fun p => bool_decide (Profile.id p ∈ ids))).

Record DetailData := {
  data_request : Request.t;
  data_comments : list RequestComment.t;
  data_activity : list RequestActivity.t;
  data_profiles : gmap string Profile.t;
}.

(** [requestData.assigned_to ? [requestData.assigned_to] : []] *)
Definition truthy_list (v : option string) : list string :=
  match v with
  | Some t => if bool_decide (t = EmptyString) then [] else [t]
  | None => []
  end.

(** The state [fetchRequestDetails] sets; [None] is [!requestData]:
    "Request not found" and the redirect to the list. *)
Definition fetchRequestDetails_data (s : Session) (db : Database)
    (requestId : string) : option DetailData :=
  match select_request s db requestId with
  | None => None
  | Some requestData =>
      let commentsData := select_comments s db requestId in
      let activityData := select_activity s db requestId in
      let userIds :=
        Request.created_by requestData
        :: truthy_list (Request.assigned_to requestData)
        ++ (RequestComment.user_id <$> commentsData)
        ++ (RequestActivity.user_id <$> activityData) in
      let profilesData := select_profiles_in s db userIds in
      Some {| data_request := requestData;
              data_comments := commentsData;
              data_activity := activityData;
              data_profiles :=
                foldl (fun m p => <[Profile.id p := p]> m) ∅ profilesData |}
  end.

(** ** Invariants of the schema *)

(** The primary key of [requests] and the foreign keys into [requests] and
    [profiles]. *)
Record schema_ok (db : Database) : Prop := {
  requests_pk : NoDup (Request.id <$> requests db);
  requests_created_by_fk :
    forall r, r ∈ requests db ->
      profile_exists db (Request.created_by r) = true;
  requests_assigned_to_fk :
    forall r, r ∈ requests db ->
      profile_exists_opt db (Request.assigned_to r) = true;
  comments_fk :
    forall c, c ∈ request_comments db ->
      request_exists db (RequestComment.request_id c) = true
      /\ profile_exists db (RequestComment.user_id c) = true;
  attachments_fk :
    forall a, a ∈ request_attachments db ->
      request_exists db (RequestAttachment.request_id a) = true
      /\ profile_exists db (RequestAttachment.uploaded_by a) = true;
  activity_fk :
    forall a, a ∈ request_activity db ->
      request_exists db (RequestActivity.request_id a) = true
      /\ profile_exists db (RequestActivity.user_id a) = true;
}.

(** [id] and [email] of [profiles] are unique. *)
Record profiles_ok (db : Database) : Prop := {
  profiles_pk : NoDup (Profile.id <$> profiles db);
  profiles_email_unique : NoDup (Profile.email <$> profiles db);
}.

(** ** More sample data *)

(** ** [String.prototype.trim]

    The handlers take [trim] as a parameter.  On texts of ASCII characters
    it removes the white space and the line terminators (tab, line feed,
    vertical tab, form feed, carriage return, space) from both ends; the
    white space outside ASCII, which [trim] removes as well, is not
    covered by this instance. *)
Definition is_white_space (c : Ascii.ascii) : bool :=
  let n := Ascii.nat_of_ascii c in
  (Nat.leb 9 n && Nat.leb n 13) || Nat.eqb n 32.

Fixpoint trimStart (t : string) : string :=
  match t with
  | EmptyString => EmptyString
  | String c rest => if is_white_space c then trimStart rest else t
  end.

Fixpoint trimEnd (t : string) : string :=
  match t with
  | EmptyString => EmptyString
  | String c rest =>
      match trimEnd rest with
      | EmptyString =>
          if is_white_space c then EmptyString else String c EmptyString
      | kept => String c kept
      end
  end.

Definition trim_ascii (t : string) : string := trimEnd (trimStart t).

Module Sample.
End Sample.

(** * Properties of the permission hook *)

(** Case analysis on the role tests and the id comparisons of the hook. *)
Ltac hook_cases :=
  repeat case_bool_decide; simpl in *; try done; try naive_solver.

Section Hook.
Implicit Types (auth : AuthContext) (createdBy : string)
  (assignedTo : option string).

Lemma strict_eq_opt_true assignedTo id :
  strict_eq_opt assignedTo id = true <-> assignedTo = Some id.
Proof.
  destruct assignedTo as [a|]; simpl; [|done].
  rewrite bool_decide_eq_true. naive_solver.
Qed.

Lemma canViewRequest_spec auth createdBy :
  canViewRequest (usePermissions auth) createdBy = true <->
  exists u, user auth = Some u /\
    (role (usePermissions auth) = Some role_admin
     \/ role (usePermissions auth) = Some role_team_member
     \/ createdBy = User.id u).
Proof.
  cbn. destruct (user auth) as [u|]; [|naive_solver].
  split.
  - intros H. exists u. split; [done|]. hook_cases.
  - intros (u' & [= <-] & H). hook_cases.
Qed.

Lemma canEditRequest_spec auth createdBy assignedTo :
  canEditRequest (usePermissions auth) createdBy assignedTo = true <->
  exists u, user auth = Some u /\
    (role (usePermissions auth) = Some role_admin
     \/ (role (usePermissions auth) = Some role_team_member
         /\ assignedTo = Some (User.id u))
     \/ createdBy = User.id u).
Proof.
  cbn. destruct (user auth) as [u|]; [|naive_solver].
  pose proof (strict_eq_opt_true assignedTo (User.id u)) as Ha.
  destruct (strict_eq_opt assignedTo (User.id u)).
  - assert (assignedTo = Some (User.id u)) by (by apply Ha).
    split.
    + intros H'. exists u. split; [done|]. hook_cases.
    + intros (u' & [= <-] & H'). hook_cases.
  - assert (assignedTo <> Some (User.id u)) by (intros ?%Ha; done).
    split.
    + intros H'. exists u. split; [done|]. hook_cases.
    + intros (u' & [= <-] & H'). hook_cases.
Qed.

Lemma canDeleteRequest_spec auth createdBy :
  canDeleteRequest (usePermissions auth) createdBy = true <->
  exists u, user auth = Some u /\
    (role (usePermissions auth) = Some role_admin \/ createdBy = User.id u).
Proof.
  cbn. destruct (user auth) as [u|]; [|naive_solver].
  split.
  - intros H. exists u. split; [done|]. hook_cases.
  - intros (u' & [= <-] & H). hook_cases.
Qed.

Lemma canCommentOnRequest_spec auth createdBy :
  canCommentOnRequest (usePermissions auth) createdBy = true <->
  exists u, user auth = Some u /\
    role (usePermissions auth) <> Some role_guest /\
    (role (usePermissions auth) = Some role_admin
     \/ role (usePermissions auth) = Some role_team_member
     \/ createdBy = User.id u).
Proof.
  cbn. destruct (user auth) as [u|]; [|naive_solver].
  split.
  - intros H. exists u. split; [done|]. hook_cases.
  - intros (u' & [= <-] & H). hook_cases.
Qed.
End Hook.

(** C3: the flags and predicates of the hook depend on the role of the
    profile and on the id of the user only: two evaluations on contexts that
    agree on these return equal flags and pointwise equal predicates,
    whatever the other fields of the profile and the user are. *)
Theorem usePermissions_pure (a1 a2 : AuthContext) :
  Profile.role <$> profile a1 = Profile.role <$> profile a2 ->
  User.id <$> user a1 = User.id <$> user a2 ->
  let p1 := usePermissions a1 in
  let p2 := usePermissions a2 in
  role p1 = role p2
  /\ isAdmin p1 = isAdmin p2
  /\ isTeamMember p1 = isTeamMember p2
  /\ isUser p1 = isUser p2
  /\ isGuest p1 = isGuest p2
  /\ canCreateRequest p1 = canCreateRequest p2
  /\ canViewAllRequests p1 = canViewAllRequests p2
  /\ canEditAnyRequest p1 = canEditAnyRequest p2
  /\ canDeleteAnyRequest p1 = canDeleteAnyRequest p2
  /\ canManageUsers p1 = canManageUsers p2
  /\ (forall createdBy assignedTo,
        canEditRequest p1 createdBy assignedTo
        = canEditRequest p2 createdBy assignedTo)
  /\ (forall createdBy,
        canDeleteRequest p1 createdBy = canDeleteRequest p2 createdBy)
  /\ (forall createdBy,
        canCommentOnRequest p1 createdBy = canCommentOnRequest p2 createdBy)
  /\ (forall createdBy,
        canViewRequest p1 createdBy = canViewRequest p2 createdBy).
Proof.
  intros Hrole Huser. cbn. rewrite Hrole.
  destruct (user a1) as [u1|], (user a2) as [u2|]; simpl in Huser;
    try discriminate; repeat split; try done.
  all: injection Huser as ->; done.
Qed.

Lemma usePermissions_pure_witness :
  canEditRequest (usePermissions (Ex.auth_of "uma" role_user)) "uma" None
  = canEditRequest (usePermissions Ex.uma_again) "uma" None
  /\ canCommentOnRequest (usePermissions (Ex.auth_of "uma" role_user)) "tom"
     = canCommentOnRequest (usePermissions Ex.uma_again) "tom".
Proof.
  pose proof (usePermissions_pure (Ex.auth_of "uma" role_user) Ex.uma_again
                eq_refl eq_refl) as H.
  cbv zeta in H.
  destruct H as (_ & _ & _ & _ & _ & _ & _ & _ & _ & _ & He & _ & Hc & _).
  split; [apply He | apply Hc].
Defined.

(** C9: a capability to edit, delete or comment on a request implies the
    capability to view it. *)
Theorem stronger_capabilities_imply_view (auth : AuthContext)
    (createdBy : string) (assignedTo : option string) :
  let p := usePermissions auth in
  (canEditRequest p createdBy assignedTo = true ->
   canViewRequest p createdBy = true)
  /\ (canDeleteRequest p createdBy = true -> canViewRequest p createdBy = true)
  /\ (canCommentOnRequest p createdBy = true ->
      canViewRequest p createdBy = true).
Proof.
  cbv zeta.
  rewrite canEditRequest_spec, canDeleteRequest_spec,
    canCommentOnRequest_spec, canViewRequest_spec.
  naive_solver.
Qed.

Lemma stronger_capabilities_imply_view_witness :
  canViewRequest (usePermissions (Ex.auth_of "tom" role_team_member)) "uma"
  = true.
Proof.
  apply (proj1 (stronger_capabilities_imply_view
                  (Ex.auth_of "tom" role_team_member) "uma" (Some "tom"))).
  reflexivity.
Defined.

(** C8, as amended: without a user every per-request capability is false
    on all arguments; the role is the role of the profile the context
    holds, and is null exactly when that profile is null. *)
Theorem signed_out_capabilities (auth : AuthContext) :
  user auth = None ->
  let p := usePermissions auth in
  (forall createdBy assignedTo, canEditRequest p createdBy assignedTo = false)
  /\ (forall createdBy, canDeleteRequest p createdBy = false)
  /\ (forall createdBy, canCommentOnRequest p createdBy = false)
  /\ (forall createdBy, canViewRequest p createdBy = false)
  /\ role p = Profile.role <$> profile auth
  /\ (role p = None <-> profile auth = None).
Proof.
  intros Hu. cbn. rewrite Hu. repeat split; try done.
  all: destruct (profile auth); simpl; congruence.
Qed.

Lemma signed_out_capabilities_witness :
  canEditRequest (usePermissions Ex.stale_auth) "ann" (Some "ann") = false.
Proof.
  apply (signed_out_capabilities Ex.stale_auth eq_refl).
Defined.

(** C8 as stated fails: a context without a user that holds an admin
    profile has role admin, not null. *)
Lemma signed_out_role_counterexample :
  user Ex.stale_auth = None
  /\ role (usePermissions Ex.stale_auth) <> None.
Proof. split; [reflexivity | discriminate]. Qed.

(** * Three-valued conditions *)


(** * The rewriter *)

Section Rewriter.
Implicit Types (P : Policies) (role : PgRole) (active : list Table)
  (cmds : list Command) (t : Table).

Lemma expand_policies_unfold fuel P role active cmds t :
  expand_policies fuel P role active cmds t
  = match sublinks role cmds (policies_on P t) with
    | [] => true
    | subs =>
        if bool_decide (t ∈ active) then false
        else
          match fuel with
          | O => false
          | S fuel =>
              forallb (expand_policies fuel P role (active ++ [t]) [SELECT])
                      (concat subs)
          end
    end.
Proof. by destruct fuel. Qed.

Lemma all_tables_complete t : t ∈ all_tables.
Proof. destruct t; unfold all_tables; set_solver. Qed.

(** A list of tables without repetition has at most as many entries as
    there are tables. *)
Lemma tables_bound (l : list Table) :
  NoDup l -> (length l <= length all_tables)%nat.
Proof.
  intros Hnd. apply submseteq_length, NoDup_submseteq; [done|].
  intros t _. apply all_tables_complete.
Qed.

Lemma forallb_pointwise {A} (f g : A -> bool) (l : list A) :
  (forall x, f x = g x) -> forallb f l = forallb g l.
Proof. intros E. induction l as [|x l IH]; simpl; [done|]. by rewrite E, IH. Qed.

(** The bound on the depth of the walk is never what stops it: more fuel
    than tables that are not yet on the list changes nothing. *)
Lemma expand_policies_fuel P role fuel active cmds t :
  NoDup active ->
  (length all_tables <= fuel + length active)%nat ->
  expand_policies (S fuel) P role active cmds t
  = expand_policies fuel P role active cmds t.
Proof.
  revert active cmds t. induction fuel as [|fuel IH];
    intros active cmds t Hnd Hlen;
    rewrite (expand_policies_unfold (S _));
    [rewrite (expand_policies_unfold 0)
    |rewrite (expand_policies_unfold (S fuel))].
  - destruct (sublinks _ _ _) as [|t' subs]; [done|].
    case_bool_decide as Hin; [done|]. exfalso.
    assert (NoDup (t :: active)) as Hnd' by by apply NoDup_cons.
    apply tables_bound in Hnd'. simpl in Hnd', Hlen. lia.
  - destruct (sublinks _ _ _) as [|t' subs]; [done|].
    case_bool_decide as Hin; [done|].
    apply forallb_pointwise. intros x. apply IH.
    + apply NoDup_app. split; [done|]. split; [|apply NoDup_singleton].
      intros y Hy Hy'%list_elem_of_singleton. by subst y.
    + rewrite length_app. simpl in *. lia.
Qed.

Lemma expand_policies_enough P role cmds t (extra : nat) :
  expand_policies (length all_tables + extra) P role [] cmds t
  = expand_policies (length all_tables) P role [] cmds t.
Proof.
  induction extra as [|extra IH]; [by rewrite Nat.add_0_r|].
  rewrite Nat.add_succ_r, expand_policies_fuel; [done|apply NoDup_nil_2|].
  simpl. lia.
Qed.

(** Policies without any sub-select need no walk. *)
Lemma expand_policies_flat fuel P role active cmds t :
  sublinks role cmds (policies_on P t) = [] ->
  expand_policies fuel P role active cmds t = true.
Proof. intros H. by rewrite expand_policies_unfold, H. Qed.

(** No policy of the first and of the latest migration is written for
    [anon], and the two of the sign-up fix that are have no sub-select. *)
Lemma sublinks_anon P cmds t :
  P ∈ [Migrations.first; Migrations.signup_fix; Migrations.latest] ->
  sublinks anon cmds (policies_on P t) = [].
Proof.
  intros HP. unfold sublinks, applicable.
  repeat (apply elem_of_cons in HP as [->|HP]);
    [| | |by apply elem_of_nil in HP];
    destruct t; cbn; by repeat case_bool_decide.
Qed.

Lemma rls_expand_anon P s cmds t :
  P ∈ [Migrations.first; Migrations.signup_fix; Migrations.latest] ->
  pg_role s = anon ->
  rls_expand P s cmds t = Ok tt.
Proof.
  intros HP Hs. unfold rls_expand.
  by rewrite Hs, expand_policies_flat by by apply sublinks_anon.
Qed.

(** The statements of a signed-in client that the rewriter turns down:
    all but the plain [INSERT] into [request_activity]. *)
Lemma rls_expand_authenticated s (st : Statement) :
  pg_role s = authenticated ->
  rls_expand Migrations.latest s (statement_commands st) (statement_table st)
  = match st with
    | InsertActivity _ => Ok tt
    | _ => Err infinite_recursion
    end.
Proof.
  intros Hs. unfold rls_expand. rewrite Hs.
  destruct st as [[]| | | | | | |]; vm_compute; reflexivity.
Qed.
End Rewriter.

(** * Evaluation of the policies *)

(** Unfold a policy list down to the conditions of its policies. *)
Ltac eval_policies :=
  unfold rls_using, rls_check,
    V1.requests_policies, V1.request_comments_policies,
    V1.request_activity_policies, V1.request_attachments_policies,
    V2.requests_policies, V2.request_comments_policies,
    V2.request_activity_policies, V2.request_attachments_policies;
  cbn [existsb policy_to policy_body using_of check_of passes].

(** Settle the tests whose outcome does not depend on the row. *)
Ltac decide_closed :=
  repeat match goal with
    | |- context [bool_decide ?P] =>
        first [ rewrite (bool_decide_eq_true_2 P) by (first [done | set_solver])
              | rewrite (bool_decide_eq_false_2 P) by (first [done | set_solver]) ]
    end.

(** The consolidated policies of the latest migration decide as the
    policies they replace. *)
Section Consolidated.
Context (db : Database) (s : Session).

Ltac same_decision :=
  eval_policies; unfold V2.request_viewable;
  repeat match goal with
    | |- context [profile_role_in ?l db s] =>
        generalize (profile_role_in l db s); intros ?
    | |- context [V1.request_viewable ?i db s] =>
        generalize (V1.request_viewable i db s); intros ?
    | |- context [created_by_me s ?r] =>
        generalize (created_by_me s r); intros ?
    | |- context [assigned_to_me s ?r] =>
        generalize (assigned_to_me s r); intros ?
    | |- context [Sql.eq3 ?a ?b] => generalize (Sql.eq3 a b); intros ?
    end;
  repeat match goal with x : Sql.tv |- _ => destruct x as [[]|] end;
  destruct (pg_role s); reflexivity.

Lemma requests_policies_consolidated (c : Command) (r : Request.t) :
  rls_using V2.requests_policies c db s r
  = rls_using V1.requests_policies c db s r
  /\ rls_check V2.requests_policies c db s r
     = rls_check V1.requests_policies c db s r.
Proof. split; destruct c; same_decision. Qed.

Lemma request_comments_policies_consolidated (c : Command)
    (r : RequestComment.t) :
  rls_using V2.request_comments_policies c db s r
  = rls_using V1.request_comments_policies c db s r
  /\ rls_check V2.request_comments_policies c db s r
     = rls_check V1.request_comments_policies c db s r.
Proof. split; destruct c; same_decision. Qed.

Lemma request_activity_policies_consolidated (c : Command)
    (r : RequestActivity.t) :
  rls_using V2.request_activity_policies c db s r
  = rls_using V1.request_activity_policies c db s r
  /\ rls_check V2.request_activity_policies c db s r
     = rls_check V1.request_activity_policies c db s r.
Proof. split; destruct c; same_decision. Qed.
End Consolidated.

(** * The audit triggers *)

Section Activity.
Implicit Types (db : Database) (env : Env) (s : Session).









End Activity.

Section Updates.
Implicit Types (db : Database) (env : Env) (s : Session).


End Updates.




(** * Statements by role *)

Lemma filter_none {A} (P : A -> Prop) `{!forall x, Decision (P x)}
    (l : list A) :
  (forall x, x ∈ l -> ~ P x) -> filter P l = [].
Proof.
  induction l as [|x l IH]; intros Hn; [done|].
  rewrite filter_cons_False by (apply Hn, list_elem_of_here).
  apply IH. intros y Hy. apply Hn. by apply list_elem_of_further.
Qed.

Section ByRole.
Implicit Types (env : Env) (s : Session) (db view : Database).

(** Policies written for another role admit nothing. *)
Lemma rls_other_role {Row} (pols : list (Policy Row)) (c : Command) view s
    (row : Row) :
  Forall (fun p => policy_to p <> pg_role s) pols ->
  rls_using pols c view s row = false /\ rls_check pols c view s row = false.
Proof.
  unfold rls_using, rls_check.
  induction 1 as [|p pols Hp _ [IHu IHc]]; [done|].
  cbn [existsb]. rewrite IHu, IHc, (bool_decide_eq_false_2 _ Hp). done.
Qed.

Lemma rls_latest_anon s (t : Table) (c : Command) view (row : RowOf t) :
  pg_role s = anon ->
  rls_using (policies_on Migrations.latest t) c view s row = false
  /\ rls_check (policies_on Migrations.latest t) c view s row = false.
Proof.
  intros Hs. apply rls_other_role. rewrite Hs.
  destruct t; cbn; repeat (constructor; [discriminate|]); constructor.
Qed.






(** The statements of a signed-in client stop in the rewriter, all but
    the plain [INSERT] into [request_activity]. *)
Lemma exec_authenticated env s (st : Statement) db :
  pg_role s = authenticated ->
  exec env s st db
  = match st with
    | InsertActivity a => insert_activity s a db
    | _ => Err infinite_recursion
    end.
Proof.
  intros Hs. unfold exec. rewrite rls_expand_authenticated by done.
  by destruct st.
Qed.



End ByRole.

(** * The claims about the hook and the policies *)

Lemma in_sync_db0 (id : string) (ro : UserRole) :
  Ex.profile_of id ro ∈ profiles Ex.db0 ->
  in_sync Ex.db0 (signed_in id) (Ex.auth_of id ro)
    (User.mk id (Some (id +:+ "@example.org"))).
Proof.
  intros Hin. split; try reflexivity.
  unfold Ex.db0, Ex.profile_of in Hin. cbn [profiles] in Hin.
  repeat (apply elem_of_cons in Hin as [Hin|Hin];
          [injection Hin as -> _ ->; vm_compute; reflexivity|]).
  by apply elem_of_nil in Hin.
Qed.

(** C1: the hook and the policies part ways.  The hook lets uma, of role
    user, view, edit, delete and comment on her own request and create
    requests.  The policies decide none of this for her session: under
    the policies of every migration, adding them to the statement ends in
    the recursion error, because they read [profiles] in a sub-select and
    the [SELECT] policies of [profiles] read [profiles] themselves. *)
Theorem hook_policy_divergence :
  in_sync Ex.db0 (signed_in "uma") (Ex.auth_of "uma" role_user)
    (User.mk "uma" (Some "uma@example.org"))
  /\ Ex.request_of "r0" "uma" ∈ requests Ex.db0
  /\ canViewRequest (usePermissions (Ex.auth_of "uma" role_user)) "uma" = true
  /\ canEditRequest (usePermissions (Ex.auth_of "uma" role_user)) "uma" None
     = true
  /\ canDeleteRequest (usePermissions (Ex.auth_of "uma" role_user)) "uma"
     = true
  /\ canCommentOnRequest (usePermissions (Ex.auth_of "uma" role_user)) "uma"
     = true
  /\ canCreateRequest (usePermissions (Ex.auth_of "uma" role_user)) = true
  /\ Forall
       (fun P =>
          using_decision P t_requests SELECT Ex.db0 (signed_in "uma")
            (Ex.request_of "r0" "uma") = Err infinite_recursion
          /\ using_decision P t_requests UPDATE Ex.db0 (signed_in "uma")
               (Ex.request_of "r0" "uma") = Err infinite_recursion
          /\ check_decision P t_requests UPDATE Ex.db0 (signed_in "uma")
               (Ex.request_of "r0" "uma") = Err infinite_recursion
          /\ using_decision P t_requests DELETE Ex.db0 (signed_in "uma")
               (Ex.request_of "r0" "uma") = Err infinite_recursion
          /\ check_decision P t_requests INSERT Ex.db0 (signed_in "uma")
               (Ex.request_of "r0" "uma") = Err infinite_recursion
          /\ check_decision P t_request_comments INSERT Ex.db0
               (signed_in "uma") (Ex.comment_by "uma" "r0")
             = Err infinite_recursion)
       [Migrations.first; Migrations.signup_fix; Migrations.latest].
Proof.
  split.
  { apply (in_sync_db0 "uma" role_user). set_solver. }
  split; [set_solver|].
  do 5 (split; [reflexivity|]).
  repeat constructor.
Qed.

(** C2, as amended: for each of the roles admin, team member and user there
    are a signed-in user of that role and a request on which the hook
    allows a comment; for a guest the hook allows no comment on any
    request. *)
Theorem parties_that_comment :
  (forall ro : UserRole, ro <> role_guest ->
     exists db auth u r,
       role (usePermissions auth) = Some ro
       /\ in_sync db (signed_in (User.id u)) auth u
       /\ r ∈ requests db
       /\ canCommentOnRequest (usePermissions auth) (Request.created_by r)
          = true)
  /\ (forall auth createdBy,
        role (usePermissions auth) = Some role_guest ->
        canCommentOnRequest (usePermissions auth) createdBy = false).
Proof.
  split.
  - intros ro Hro.
    pose (who := match ro with
                 | role_admin => "ann" | role_team_member => "tom"
                 | _ => "uma"
                 end).
    exists Ex.db0, (Ex.auth_of who ro),
      (User.mk who (Some (who +:+ "@example.org"))),
      (Ex.request_of "r0" "uma").
    destruct ro; try done; subst who.
    all: split; [reflexivity|].
    all: split; [apply in_sync_db0; set_solver|].
    all: split; [set_solver|reflexivity].
  - intros auth createdBy Hg.
    destruct (canCommentOnRequest (usePermissions auth) createdBy) eqn:E;
      [|done].
    apply canCommentOnRequest_spec in E as (? & _ & Hng & _). done.
Qed.

Lemma parties_that_comment_witness :
  exists db auth u r,
    role (usePermissions auth) = Some role_team_member
    /\ in_sync db (signed_in (User.id u)) auth u
    /\ r ∈ requests db
    /\ canCommentOnRequest (usePermissions auth) (Request.created_by r) = true.
Proof.
  apply (proj1 parties_that_comment role_team_member). discriminate.
Defined.

(** C2 as stated fails: no user of role guest can comment through the
    hook, whatever the request. *)
Lemma every_party_comments_counterexample :
  ~ (forall ro : UserRole,
       exists auth createdBy,
         role (usePermissions auth) = Some ro
         /\ is_Some (user auth)
         /\ canCommentOnRequest (usePermissions auth) createdBy = true).
Proof.
  intros H. destruct (H role_guest) as (auth & createdBy & Hro & _ & Hc).
  apply canCommentOnRequest_spec in Hc as (? & _ & Hng & _). done.
Qed.

(** * The detail page *)



Lemma send_cons (env : Env) (s : Session) (st : Statement)
    (sts : list Statement) (db : Database) :
  send env s (st :: sts) db = db' ← exec env s st db; send env s sts db'.
Proof.
  unfold send. cbn [foldl mbind Result_bind].
  destruct (exec env s st db) as [db'|e]; [done|].
  induction sts as [|st' sts IH]; [done|]. apply IH.
Qed.



(** * Enum membership *)

Lemma request_status_in_out (st : RequestStatus) :
  request_status_in (request_status_out st) = Some st.
Proof. by destruct st. Qed.

Lemma request_priority_in_out (p : RequestPriority) :
  request_priority_in (request_priority_out p) = Some p.
Proof. by destruct p. Qed.

Lemma request_status_in_labels (t : string) :
  is_Some (request_status_in t) <-> t ∈ request_status_labels.
Proof.
  unfold request_status_in, request_status_labels.
  repeat case_decide; subst; set_unfold;
    (split; [intros [? ?]; try done; auto 10 | intros ?; try done; eauto]).
  naive_solver.
Qed.

Lemma request_priority_in_labels (t : string) :
  is_Some (request_priority_in t) <-> t ∈ request_priority_labels.
Proof.
  unfold request_priority_in, request_priority_labels.
  repeat case_decide; subst; set_unfold;
    (split; [intros [? ?]; try done; auto 10 | intros ?; try done; eauto]).
  naive_solver.
Qed.

Lemma form_reachable_priority (f : NewRequestForm) :
  form_reachable f -> form_priority f ∈ priority_items.
Proof.
  induction 1 as [|f e f' _ IH Hstep].
  - unfold priority_items. set_solver.
  - destruct e; simpl in Hstep; try (injection Hstep as <-; exact IH).
    case_bool_decide; [|done]. by injection Hstep as <-.
Qed.

(** C7: the status and the priority of every request row are among the
    five and the three labels; the database casts exactly these labels and
    rejects a row with any other text; the select boxes offer exactly
    these labels; the new-request form always sends status 'new' and a
    priority among the three. *)
Theorem enum_membership :
  (forall r : Request.t,
     request_status_out (Request.status r) ∈ request_status_labels
     /\ request_priority_out (Request.priority r) ∈ request_priority_labels)
  /\ (forall t, is_Some (request_status_in t) <-> t ∈ request_status_labels)
  /\ (forall t, is_Some (request_priority_in t)
                <-> t ∈ request_priority_labels)
  /\ status_items = request_status_labels
  /\ priority_items = request_priority_labels
  /\ (forall trim auth f st,
        form_reachable f -> st ∈ handleSubmit trim auth f ->
        exists p, st = InsertRequest p
          /\ RequestInsert.status p = "new"
          /\ RequestInsert.priority p ∈ request_priority_labels)
  /\ (forall env s p db,
        RequestInsert.status p ∉ request_status_labels
        \/ RequestInsert.priority p ∉ request_priority_labels ->
        insert_request env s p db = Err invalid_text_representation)
  /\ (forall p r,
        (exists t, RequestUpdate.status p = Some t
                   /\ t ∉ request_status_labels)
        \/ (exists t, RequestUpdate.priority p = Some t
                      /\ t ∉ request_priority_labels) ->
        apply_update p r = Err invalid_text_representation).
Proof.
  split; [|split; [|split; [|split; [|split; [|split; [|split]]]]]].
  - intros r. split.
    + apply request_status_in_labels. rewrite request_status_in_out. eauto.
    + apply request_priority_in_labels. rewrite request_priority_in_out. eauto.
  - apply request_status_in_labels.
  - apply request_priority_in_labels.
  - reflexivity.
  - reflexivity.
  - intros trim auth f st Hf Hst. unfold handleSubmit in Hst.
    destruct (negb _); [by apply elem_of_nil in Hst|].
    destruct (user auth) as [u|]; [|by apply elem_of_nil in Hst].
    case_bool_decide; [by apply elem_of_nil in Hst|].
    apply list_elem_of_singleton in Hst as ->.
    eexists. split; [reflexivity|]. split; [reflexivity|].
    simpl. by apply form_reachable_priority.
  - intros env s p db Hbad. unfold insert_request, cast.
    destruct (request_status_in (RequestInsert.status p)) as [st|] eqn:Es;
      [|done].
    destruct (request_priority_in (RequestInsert.priority p)) as [pr|] eqn:Ep;
      [|done].
    exfalso. destruct Hbad as [Hbad|Hbad]; apply Hbad.
    + apply request_status_in_labels. eauto.
    + apply request_priority_in_labels. eauto.
  - intros p r Hbad. unfold apply_update, cast.
    destruct Hbad as [(t & -> & Hbad)|(t & Hp & Hbad)].
    + destruct (request_status_in t) eqn:Es; [|done].
      exfalso. apply Hbad, request_status_in_labels. eauto.
    + rewrite Hp.
      destruct (request_priority_in t) eqn:Ep;
        [exfalso; apply Hbad, request_priority_in_labels; eauto|].
      by destruct (RequestUpdate.status p) as [t'|];
        [destruct (request_status_in t')|].
Qed.

Lemma enum_membership_witness :
  exists p,
    InsertRequest (RequestInsert.mk "Fix it" None "high" "new" None "uma" None)
    = InsertRequest p
    /\ RequestInsert.status p = "new"
    /\ RequestInsert.priority p ∈ request_priority_labels.
Proof.
  apply (proj1 (proj2 (proj2 (proj2 (proj2 (proj2 enum_membership)))))
           (fun t => t) (Ex.auth_of "uma" role_user)
           {| form_title := "Fix it"; form_description := EmptyString;
              form_priority := "high"; form_dueDate := None |}).
  - eapply (form_next _ (SetPriority "high"));
      [eapply (form_next _ (SetTitle "Fix it")); [apply form_init|]|];
      reflexivity.
  - vm_compute. apply list_elem_of_here.
Defined.


(** * The trigger of the audit trail on updates *)

Section ChangeLog.
Implicit Types (env : Env) (s : Session) (db : Database)
  (OLD NEW : Request.t).

End ChangeLog.



(** * The audit table over the statements *)






(** * Sign-up *)

Section SignupFacts.
Implicit Types (db : Database) (env : Env) (new : AuthUser.t).

Lemma signup_role_spec new r :
  signup_role new = Ok r <->
  (meta_text new "role" = None /\ r = role_user)
  \/ (exists t, meta_text new "role" = Some t /\ user_role_in t = Some r).
Proof.
  unfold signup_role, cast.
  destruct (meta_text new "role") as [t|].
  - destruct (user_role_in t) as [r'|] eqn:Et; split.
    + intros [= <-]. right. eauto.
    + intros [[? _]|(? & [= <-] & ?)]; congruence.
    + done.
    + intros [[? _]|(? & [= <-] & ?)]; congruence.
  - split.
    + intros [= <-]. by left.
    + intros [[_ ->]|(? & ? & _)]; done.
Qed.

Lemma signup_role_claimed new r :
  signup_role new = Ok r -> r = claimed_signup_role new.
Proof.
  intros [[H ->]|(t & H & Ht)]%signup_role_spec;
    unfold claimed_signup_role; rewrite H; simpl; [done|].
  by rewrite Ht.
Qed.

Lemma signup_role_invalid new t :
  meta_text new "role" = Some t -> user_role_in t = None ->
  signup_role new = Err invalid_text_representation.
Proof. intros H Ht. unfold signup_role, cast. by rewrite H, Ht. Qed.

Lemma handle_new_user_total env new db :
  exists db', Signup.handle_new_user env new db = Ok db'.
Proof.
  unfold Signup.handle_new_user.
  destruct (handle_new_user_insert true env new db); eauto.
Qed.
End SignupFacts.

(** C10, as amended: when the role field of the signup metadata is a label
    of [user_role], 'admin' included, the profile [handle_new_user] inserts
    has that role, and role 'user' when the field is absent or null; when
    the field holds any other text the cast fails: the first version of the
    trigger aborts and the latest version creates no profile.  The latest
    version always returns, so it never aborts the creation of the auth
    user, also on a conflicting or failing insert. *)
Theorem handle_new_user_role (env : Env) (new : AuthUser.t) (db : Database) :
  (forall r e,
     signup_role new = Ok r ->
     AuthUser.email new = Some e ->
     profile_exists db (AuthUser.id new) = false ->
     existsb (fun p => bool_decide (Profile.email p = e)) (profiles db)
     = false ->
     r = claimed_signup_role new
     /\ Signup.handle_new_user env new db
        = Ok (set_profiles
                (fun rows => rows ++ [Profile.mk (AuthUser.id new) e
                                        (Some (default EmptyString (meta_text new "full_name")))
                                        None r (now env) (now env)])
                db)
     /\ Signup.handle_new_user_v1 env new db
        = Signup.handle_new_user env new db)
  /\ (user_role_in "admin" = Some role_admin
      /\ forall r, user_role_in (user_role_out r) = Some r)
  /\ (forall t,
        meta_text new "role" = Some t -> user_role_in t = None ->
        Signup.handle_new_user env new db = Ok db
        /\ Signup.handle_new_user_v1 env new db
           = Err invalid_text_representation)
  /\ (exists db', Signup.handle_new_user env new db = Ok db')
  /\ (forall users,
        existsb (fun u => bool_decide (AuthUser.id u = AuthUser.id new)) users
        = false ->
        exists db',
          Signup.create_auth_user Signup.handle_new_user env new (users, db)
          = Ok (users ++ [new], db')).
Proof.
  split; [|split; [|split; [|split]]].
  - intros r e Hr He Hid Hemail.
    split; [by apply signup_role_claimed|].
    unfold Signup.handle_new_user_v1, Signup.handle_new_user,
      handle_new_user_insert, insert_profile.
    rewrite Hr, He. cbn [mbind Result_bind]. rewrite Hid, Hemail. done.
  - split; [reflexivity | by intros []].
  - intros t Hm Ht.
    unfold Signup.handle_new_user_v1, Signup.handle_new_user,
      handle_new_user_insert.
    by rewrite (signup_role_invalid new t).
  - apply handle_new_user_total.
  - intros users Hfresh. unfold Signup.create_auth_user. simpl.
    rewrite Hfresh. cbn [negb require mbind Result_bind].
    destruct (handle_new_user_total env new db) as [db' ->]. eauto.
Qed.

Lemma handle_new_user_role_witness :
  role_admin = claimed_signup_role (Ex.signup_as "zed" (JString "admin"))
  /\ Signup.handle_new_user Ex.env0 (Ex.signup_as "zed" (JString "admin")) Ex.db0
     = Ok (set_profiles
             (fun rows => rows ++ [Profile.mk "zed" "zed@example.org" (Some EmptyString)
                                     None role_admin 20 20])
             Ex.db0)
  /\ Signup.handle_new_user Ex.env0 (Ex.signup_as "zed" (JString "root")) Ex.db0
     = Ok Ex.db0.
Proof.
  destruct (proj1 (handle_new_user_role Ex.env0
                     (Ex.signup_as "zed" (JString "admin")) Ex.db0)
              role_admin "zed@example.org") as (H1 & H2 & _);
    try (vm_compute; reflexivity).
  split; [exact H1|]. split; [exact H2|].
  apply (proj1 (proj2 (proj2 (handle_new_user_role Ex.env0
                  (Ex.signup_as "zed" (JString "root")) Ex.db0))) "root");
    vm_compute; reflexivity.
Defined.

(** C10 as stated fails: a sign-up whose role field is no label of
    [user_role] gets no profile at all, not a profile of role 'user'. *)
Lemma handle_new_user_role_counterexample :
  ~ (forall env new db db',
       is_Some (AuthUser.email new) ->
       profile_exists db (AuthUser.id new) = false ->
       Signup.handle_new_user env new db = Ok db' ->
       exists p, p ∈ profiles db'
         /\ Profile.id p = AuthUser.id new
         /\ Profile.role p = claimed_signup_role new).
Proof.
  intros H.
  destruct (H Ex.env0 (Ex.signup_as "zed" (JString "root")) Ex.db0 Ex.db0)
    as (p & Hin & Hid & _).
  - by eexists.
  - vm_compute. reflexivity.
  - vm_compute. reflexivity.
  - unfold Ex.db0 in Hin. cbn [profiles] in Hin.
    set_unfold. destruct Hin as [->|[->|[->|[->|[]]]]]; discriminate Hid.
Qed.

(** * The migrations against each other *)

(** Compare two policy lists condition by condition. *)
Ltac compare_policies db s :=
  eval_policies; unfold V2.request_viewable;
  repeat match goal with
    | |- context [profile_role_in ?l db s] =>
        generalize (profile_role_in l db s); intros ?
    | |- context [V1.request_viewable ?i db s] =>
        generalize (V1.request_viewable i db s); intros ?
    | |- context [created_by_me s ?r] =>
        generalize (created_by_me s r); intros ?
    | |- context [assigned_to_me s ?r] =>
        generalize (assigned_to_me s r); intros ?
    | |- context [profile_is_me s ?r] =>
        generalize (profile_is_me s r); intros ?
    | |- context [role_unchanged db s ?r] =>
        generalize (role_unchanged db s r); intros ?
    | |- context [Sql.exists_ ?f ?l] =>
        generalize (Sql.exists_ f l); intros ?
    | |- context [Sql.eq3 ?a ?b] => generalize (Sql.eq3 a b); intros ?
    end;
  repeat match goal with x : Sql.tv |- _ => destruct x as [[]|] end;
  destruct (pg_role s); reflexivity.

Lemma request_attachments_policies_consolidated (db : Database) (s : Session)
    (c : Command) (r : RequestAttachment.t) :
  rls_using V2.request_attachments_policies c db s r
  = rls_using V1.request_attachments_policies c db s r
  /\ rls_check V2.request_attachments_policies c db s r
     = rls_check V1.request_attachments_policies c db s r.
Proof. split; destruct c; compare_policies db s. Qed.

(** X2.
    The consolidated policies of the latest migration on [requests],
    [request_comments], [request_activity] and [request_attachments] decide
    every command on every row, for every session, as the policies of the
    first migration do. *)
Theorem policies_consolidated (db : Database) (s : Session) (c : Command) :
  (forall r,
     rls_using V2.requests_policies c db s r
     = rls_using V1.requests_policies c db s r
     /\ rls_check V2.requests_policies c db s r
        = rls_check V1.requests_policies c db s r)
  /\ (forall r,
        rls_using V2.request_comments_policies c db s r
        = rls_using V1.request_comments_policies c db s r
        /\ rls_check V2.request_comments_policies c db s r
           = rls_check V1.request_comments_policies c db s r)
  /\ (forall r,
        rls_using V2.request_activity_policies c db s r
        = rls_using V1.request_activity_policies c db s r
        /\ rls_check V2.request_activity_policies c db s r
           = rls_check V1.request_activity_policies c db s r)
  /\ (forall r,
        rls_using V2.request_attachments_policies c db s r
        = rls_using V1.request_attachments_policies c db s r
        /\ rls_check V2.request_attachments_policies c db s r
           = rls_check V1.request_attachments_policies c db s r).
Proof.
  split; [intros; apply requests_policies_consolidated|].
  split; [intros; apply request_comments_policies_consolidated|].
  split; [intros; apply request_activity_policies_consolidated|].
  intros; apply request_attachments_policies_consolidated.
Qed.

Ltac eval_profile_policies :=
  unfold rls_using, rls_check, ProfilePolicies.v1, ProfilePolicies.signup_fix,
    ProfilePolicies.latest, ProfilePolicies.read_own,
    ProfilePolicies.read_all_admin, ProfilePolicies.update_own,
    ProfilePolicies.update_any_admin, ProfilePolicies.insert_own;
  cbn [existsb policy_to policy_body using_of check_of passes].

(** X3.
    On [profiles] the three migrations decide alike for a signed-in
    session.  For an [anon] session the second migration lets every row be
    read and inserted, and the first and the latest admit nothing. *)
Theorem profiles_policies_migrations (db : Database) (s : Session)
    (c : Command) (p : Profile.t) :
  (pg_role s = authenticated ->
   rls_using ProfilePolicies.latest c db s p
   = rls_using ProfilePolicies.signup_fix c db s p
   /\ rls_check ProfilePolicies.latest c db s p
      = rls_check ProfilePolicies.signup_fix c db s p
   /\ rls_using ProfilePolicies.signup_fix c db s p
      = rls_using ProfilePolicies.v1 c db s p
   /\ rls_check ProfilePolicies.signup_fix c db s p
      = rls_check ProfilePolicies.v1 c db s p)
  /\ (pg_role s = anon ->
      rls_using ProfilePolicies.latest c db s p = false
      /\ rls_check ProfilePolicies.latest c db s p = false
      /\ rls_using ProfilePolicies.v1 c db s p = false
      /\ rls_check ProfilePolicies.v1 c db s p = false
      /\ rls_using ProfilePolicies.signup_fix c db s p
         = bool_decide (c = SELECT)
      /\ rls_check ProfilePolicies.signup_fix c db s p
         = bool_decide (c = INSERT)).
Proof.
  split; intros Hs.
  - repeat split; destruct c; eval_profile_policies; rewrite Hs;
      repeat match goal with
        | |- context [profile_role_in ?l db s] =>
            generalize (profile_role_in l db s); intros ?
        | |- context [profile_is_me s ?r] =>
            generalize (profile_is_me s r); intros ?
        | |- context [role_unchanged db s ?r] =>
            generalize (role_unchanged db s r); intros ?
        end;
      repeat match goal with x : Sql.tv |- _ => destruct x as [[]|] end;
      reflexivity.
  - repeat split; destruct c; eval_profile_policies; rewrite Hs;
      reflexivity.
Qed.

Lemma profiles_policies_migrations_witness :
  rls_using ProfilePolicies.signup_fix SELECT Ex.db0
    {| pg_role := anon; auth_uid := None |} (Ex.profile_of "ann" role_admin)
  = true
  /\ rls_using ProfilePolicies.latest SELECT Ex.db0
       {| pg_role := anon; auth_uid := None |} (Ex.profile_of "ann" role_admin)
     = false.
Proof.
  destruct (proj2 (profiles_policies_migrations Ex.db0
                     {| pg_role := anon; auth_uid := None |} SELECT
                     (Ex.profile_of "ann" role_admin)) eq_refl)
    as (H1 & _ & _ & _ & H2 & _).
  split; [exact H2 | exact H1].
Defined.


(** * [String.prototype.replace] and the texts built with it *)

Section Replace.
Implicit Types (pat rep s a b : string).

Lemma append_cons c a b : String c a +:+ b = String c (a +:+ b).
Proof. reflexivity. Qed.

Lemma append_nil b : EmptyString +:+ b = b.
Proof. reflexivity. Qed.

Lemma replace_unfold pat rep s :
  replace pat rep s
  = if String.prefix pat s then rep +:+ string_drop (String.length pat) s
    else match s with
         | EmptyString => EmptyString
         | String c s' => String c (replace pat rep s')
         end.
Proof. by destruct s. Qed.

Lemma occurs_unfold pat s :
  occurs pat s
  = String.prefix pat s
    || match s with
       | EmptyString => false
       | String _ s' => occurs pat s'
       end.
Proof. by destruct s. Qed.

Lemma prefix_spec pat s :
  String.prefix pat s = true <-> exists b, s = pat +:+ b.
Proof.
  revert s. induction pat as [|c pat IH]; intros s.
  - split; [intros _; by exists s | by destruct s].
  - destruct s as [|c' s]; simpl.
    + split; [done | by intros (b & ?)].
    + destruct (Ascii.ascii_dec c c') as [->|Hne].
      * rewrite IH. split; intros (b & Hb); exists b.
        -- by rewrite append_cons, <- Hb.
        -- rewrite append_cons in Hb. by injection Hb.
      * split; [done|]. intros (b & Hb). rewrite append_cons in Hb.
        injection Hb as ? ?. congruence.
Qed.

Lemma string_drop_app pat b :
  string_drop (String.length pat) (pat +:+ b) = b.
Proof. induction pat as [|c pat IH]; [by destruct b | exact IH]. Qed.

End Replace.

(** X7.
    [s.replace(pat, rep)], for a replacement text without [$], leaves a
    string without [pat] as it is, and in a string with [pat] it replaces
    the first occurrence and nothing else: later occurrences stay. *)
Theorem replace_first_only (pat rep : string) :
  occurs "$" rep = false ->
  (forall s, occurs pat s = false -> replace pat rep s = s)
  /\ (forall a b,
        (forall k, (k < String.length a)%nat ->
           String.prefix pat (string_drop k (a +:+ pat +:+ b)) = false) ->
        replace pat rep (a +:+ pat +:+ b) = a +:+ rep +:+ b).
Proof.
  intros _. split.
  - induction s as [|c s IH]; rewrite occurs_unfold, replace_unfold;
      intros [Hp Ho]%orb_false_iff; rewrite Hp; [done|].
    by rewrite IH.
  - induction a as [|c a IH]; intros b Hfirst.
    + rewrite !append_nil, replace_unfold.
      rewrite (proj2 (prefix_spec pat (pat +:+ b))) by eauto.
      by rewrite string_drop_app.
    + rewrite !append_cons, replace_unfold.
      assert (String.prefix pat (String c (a +:+ pat +:+ b)) = false) as ->
        by (apply (Hfirst 0%nat); simpl; lia).
      f_equal. apply IH.
      intros k Hk. apply (Hfirst (S k)). simpl. lia.
Qed.

Lemma replace_first_only_witness :
  replace "_" " " ("due" +:+ "_" +:+ "date_changed")
  = "due" +:+ " " +:+ "date_changed".
Proof.
  apply (proj2 (replace_first_only "_" " " eq_refl) "due" "date_changed").
  intros [|[|[|k]]] Hk; try reflexivity. simpl in Hk. lia.
Defined.

(** X8.
    The status badge of the detail page never shows an underscore.  The
    activity card shows the type of a record written by the triggers
    without underscore, except for a change of the due date, which reads
    "due date_changed". *)
Theorem display_underscores :
  (forall r, occurs "_" (status_badge r) = false)
  /\ (forall a,
        trigger_record a ->
        (occurs "_" (replace "_" " " (RequestActivity.activity_type a)) = true
         <-> RequestActivity.activity_type a = "due_date_changed")
        /\ (RequestActivity.activity_type a = "due_date_changed" ->
            replace "_" " " (RequestActivity.activity_type a)
            = "due date_changed")).
Proof.
  split.
  - intros r. unfold status_badge. by destruct (Request.status r).
  - intros a Ha.
    assert (RequestActivity.activity_type a
              ∈ ["request_created"; "status_changed"; "priority_changed";
                 "assignment_changed"; "due_date_changed"; "file_uploaded"])
      as Hty.
    { destruct Ha as [NEW|env actor OLD NEW a Hin|NEW]; simpl;
        [set_solver| |set_solver].
      unfold change_log in Hin. repeat case_bool_decide; set_unfold;
        naive_solver. }
    set_unfold. destruct Hty as [->|[->|[->|[->|[->|[->|[]]]]]]];
      (split; [split; [by intros [=] | by intros [=]] | done]).
Qed.

Lemma display_underscores_witness :
  (occurs "_"
     (replace "_" " "
        (RequestActivity.activity_type
           (RequestActivity.mk "r0" "uma" "request_created" None
              (Some "Printer is broken")))) = true
   <-> RequestActivity.activity_type
         (RequestActivity.mk "r0" "uma" "request_created" None
            (Some "Printer is broken")) = "due_date_changed").
Proof.
  apply (proj2 display_underscores
           (RequestActivity.mk "r0" "uma" "request_created" None
              (Some "Printer is broken"))).
  apply (record_request_created (Ex.request_of "r0" "uma")).
Defined.


(** * What the detail page loads *)

Section Queries.
Implicit Types (s : Session) (db : Database) (t : Table).

Lemma select_from_authenticated t s db (cond : RowOf t -> bool) :
  pg_role s = authenticated ->
  select_from t s db cond = Err infinite_recursion.
Proof.
  intros Hs. unfold select_from, rls_expand. rewrite Hs.
  by destruct t.
Qed.

Lemma select_from_anon t s db (cond : RowOf t -> bool) :
  pg_role s = anon -> select_from t s db cond = Ok [].
Proof.
  intros Hs. unfold select_from.
  rewrite rls_expand_anon; [|set_solver|done]. cbn [mbind Result_bind].
  f_equal. apply filter_none. intros r _.
  rewrite (proj1 (rls_latest_anon s t SELECT _ r Hs)).
  by rewrite andb_false_r.
Qed.

(** No query of a page returns a row, whoever asks. *)
Lemma select_from_empty t s db (cond : RowOf t -> bool) :
  data_or_empty (select_from t s db cond) = [].
Proof.
  destruct (pg_role s) eqn:Hs.
  - by rewrite select_from_anon.
  - by rewrite select_from_authenticated.
Qed.
End Queries.

(** X9.
    The detail page never gets to show a request.  For a signed-in
    session each of its four queries stops in the rewriter with the
    recursion error; for an [anon] session each returns no row.  Either
    way [requestData] is [null], which the page reports as "Request not
    found", and the comments, the audit records and the profiles it would
    show are none. *)
Theorem detail_never_found (s : Session) (db : Database) :
  (forall requestId,
     fetchRequestDetails_data s db requestId = None
     /\ select_comments s db requestId = []
     /\ select_activity s db requestId = [])
  /\ (forall ids, select_profiles_in s db ids = [])
  /\ (forall t (cond : RowOf t -> bool),
        select_from t s db cond
        = match pg_role s with
          | authenticated => Err infinite_recursion
          | anon => Ok []
          end).
Proof.
  split; [|split].
  - intros requestId.
    unfold fetchRequestDetails_data, select_request, select_comments,
      select_activity.
    by rewrite !select_from_empty.
  - intros ids. unfold select_profiles_in. by rewrite select_from_empty.
  - intros t cond. destruct (pg_role s) eqn:Hs.
    + by apply select_from_anon.
    + by apply select_from_authenticated.
Qed.



(** * The policies under the rewriter *)

Lemma migrations_cases (P : Policies) (Q : Policies -> Prop) :
  P ∈ [Migrations.first; Migrations.signup_fix; Migrations.latest] ->
  Q Migrations.first -> Q Migrations.signup_fix -> Q Migrations.latest ->
  Q P.
Proof.
  intros HP H1 H2 H3.
  repeat (apply elem_of_cons in HP as [->|HP]); try done.
  by apply elem_of_nil in HP.
Qed.

Lemma rls_expand_table (P : Policies) (s : Session) (t : Table)
    (c : Command) :
  P ∈ [Migrations.first; Migrations.signup_fix; Migrations.latest] ->
  pg_role s = authenticated ->
  rls_expand P s [c] t
  = match t, c with
    | t_profiles, (INSERT | DELETE)
    | (t_request_attachments | t_request_comments), UPDATE
    | t_request_activity, (INSERT | UPDATE | DELETE) => Ok tt
    | _, _ => Err infinite_recursion
    end.
Proof.
  intros HP Hs. unfold rls_expand. rewrite Hs.
  apply (migrations_cases P (fun P => _ = _) HP);
    destruct t, c; vm_compute; reflexivity.
Qed.

(** X1.
    What the rewriter makes of the policies of a signed-in session, under
    the policies of each of the three migrations.  The policies of a table
    and a command can be added to a statement only for [INSERT] into
    [profiles] and into [request_activity] and for [UPDATE] on
    [request_comments], whose policies read no table in a sub-select, and
    for the commands no policy is written for; for every other table and
    command the sub-selects lead back into the [SELECT] policies of
    [profiles] and the expansion ends in the recursion error.
    So none of the decisions the hook has a capability for (reading,
    creating, updating and deleting a request, adding a comment) is
    taken, whatever the row and whoever is signed in. *)
Theorem policies_undecided (P : Policies) (db : Database) (s : Session) :
  P ∈ [Migrations.first; Migrations.signup_fix; Migrations.latest] ->
  pg_role s = authenticated ->
  (forall t c,
     rls_expand P s [c] t
     = match t, c with
       | t_profiles, (INSERT | DELETE)
       | (t_request_attachments | t_request_comments), UPDATE
       | t_request_activity, (INSERT | UPDATE | DELETE) => Ok tt
       | _, _ => Err infinite_recursion
       end)
  /\ (forall r : Request.t,
        using_decision P t_requests SELECT db s r = Err infinite_recursion
        /\ check_decision P t_requests INSERT db s r = Err infinite_recursion
        /\ using_decision P t_requests UPDATE db s r = Err infinite_recursion
        /\ check_decision P t_requests UPDATE db s r = Err infinite_recursion
        /\ using_decision P t_requests DELETE db s r
           = Err infinite_recursion)
  /\ (forall c : RequestComment.t,
        using_decision P t_request_comments SELECT db s c
        = Err infinite_recursion
        /\ check_decision P t_request_comments INSERT db s c
           = Err infinite_recursion).
Proof.
  intros HP Hs. split; [|split].
  - intros t c. by apply rls_expand_table.
  - intros r. unfold using_decision, check_decision.
    by rewrite !rls_expand_table.
  - intros c. unfold using_decision, check_decision.
    by rewrite !rls_expand_table.
Qed.

Lemma policies_undecided_witness :
  using_decision Migrations.latest t_requests DELETE Ex.db0 (signed_in "ann")
    (Ex.request_of "r1" "gina")
  = Err infinite_recursion.
Proof.
  apply (policies_undecided Migrations.latest Ex.db0 (signed_in "ann")).
  - set_solver.
  - reflexivity.
Defined.

Lemma profile_insert_check (P : Policies) (s : Session) (view : Database)
    (p : Profile.t) :
  P ∈ [Migrations.first; Migrations.signup_fix; Migrations.latest] ->
  pg_role s = authenticated ->
  rls_check (policies_on P t_profiles) INSERT view s p
  = bool_decide (auth_uid s = Some (Profile.id p)).
Proof.
  intros HP Hs.
  apply (migrations_cases P (fun P => _ = _) HP);
    unfold rls_check; cbn; rewrite Hs; cbn;
    destruct (auth_uid s) as [uid|]; cbn;
    repeat case_bool_decide; try done; congruence.
Qed.

(** X4.
    The policies of [profiles] for a signed-in session, under each of the
    three migrations: reading a profile and updating one are not decided,
    the expansion of these policies ends in the recursion error, for an
    admin as for anybody else; the [INSERT] policy reads no table and
    admits a row exactly when its id is the id of the session; no policy
    is written for [DELETE], which so passes no row. *)
Theorem profiles_policies_decisions (P : Policies) (db : Database)
    (s : Session) (p : Profile.t) :
  P ∈ [Migrations.first; Migrations.signup_fix; Migrations.latest] ->
  pg_role s = authenticated ->
  using_decision P t_profiles SELECT db s p = Err infinite_recursion
  /\ using_decision P t_profiles UPDATE db s p = Err infinite_recursion
  /\ check_decision P t_profiles UPDATE db s p = Err infinite_recursion
  /\ check_decision P t_profiles INSERT db s p
     = Ok (bool_decide (auth_uid s = Some (Profile.id p)))
  /\ using_decision P t_profiles DELETE db s p = Ok false.
Proof.
  intros HP Hs. unfold using_decision, check_decision.
  rewrite !rls_expand_table by done. cbn [mbind Result_bind].
  repeat (split; [done|]). split.
  - by rewrite profile_insert_check.
  - f_equal. apply (migrations_cases P (fun P => _ = _) HP);
      unfold rls_using; cbn; rewrite ?Hs; reflexivity.
Qed.

Lemma profiles_policies_decisions_witness :
  using_decision Migrations.latest t_profiles SELECT Ex.db0 (signed_in "ann")
    (Ex.profile_of "uma" role_user)
  = Err infinite_recursion
  /\ check_decision Migrations.latest t_profiles INSERT Ex.db0
       (signed_in "zed") (Ex.profile_of "zed" role_admin)
     = Ok true.
Proof.
  split.
  - apply (profiles_policies_decisions Migrations.latest Ex.db0
             (signed_in "ann") (Ex.profile_of "uma" role_user));
      [set_solver|reflexivity].
  - apply (profiles_policies_decisions Migrations.latest Ex.db0
             (signed_in "zed") (Ex.profile_of "zed" role_admin));
      [set_solver|reflexivity].
Defined.

(** * The keys of the schema *)



Section Schema.
Implicit Types (db : Database) (env : Env) (s : Session).





End Schema.

Section SchemaSteps.
Implicit Types (db : Database) (env : Env) (s : Session).







End SchemaSteps.

Section SchemaExec.
Implicit Types (db : Database) (env : Env) (s : Session).



End SchemaExec.



(** * The handlers against the database *)

(** The first statement of a signed-in client that is no plain [INSERT]
    into [request_activity] ends the handler. *)
Lemma send_refused (env : Env) (s : Session) (st : Statement)
    (sts : list Statement) (db : Database) :
  pg_role s = authenticated ->
  (forall a, st <> InsertActivity a) ->
  send env s (st :: sts) db = Err infinite_recursion.
Proof.
  intros Hs Hst. rewrite send_cons, exec_authenticated by done.
  destruct st; try done. by destruct (Hst a).
Qed.





(** X15.
    The new-request page against the database, for a signed-in user.
    [handleSubmit] exists only on the page that [canCreateRequest] lets
    through; it sends nothing when the title is blank after trimming, and
    otherwise one [INSERT] with the trimmed title, the description or
    [null], the priority and due date of the form, status [new] and the
    user as creator.  The database turns every [INSERT] into [requests] of
    a signed-in session down with the recursion error, so no request is
    created. *)
Theorem create_request_refused (trim : string -> string) (db : Database)
    (s : Session) (auth : AuthContext) (u : User.t) (env : Env)
    (f : NewRequestForm) :
  in_sync db s auth u ->
  handleSubmit trim auth f
  = (if canCreateRequest (usePermissions auth)
        && negb (bool_decide (trim (form_title f) = EmptyString))
     then [InsertRequest
             (RequestInsert.mk (trim (form_title f))
                (or_null (trim (form_description f)))
                (form_priority f) "new" (form_dueDate f) (User.id u) None)]
     else [])
  /\ (forall p, exec env s (InsertRequest p) db = Err infinite_recursion)
  /\ (canCreateRequest (usePermissions auth) = true ->
      trim (form_title f) <> EmptyString ->
      send env s (handleSubmit trim auth f) db = Err infinite_recursion)
  /\ (forall db',
        send env s (handleSubmit trim auth f) db = Ok db' -> db' = db).
Proof.
  intros Hsync. pose proof (sync_role _ _ _ _ Hsync) as Hs.
  pose proof (sync_user _ _ _ _ Hsync) as Hu.
  assert (Hsubmit :
    handleSubmit trim auth f
    = (if canCreateRequest (usePermissions auth)
          && negb (bool_decide (trim (form_title f) = EmptyString))
       then [InsertRequest
               (RequestInsert.mk (trim (form_title f))
                  (or_null (trim (form_description f)))
                  (form_priority f) "new" (form_dueDate f) (User.id u) None)]
       else [])).
  { unfold handleSubmit. rewrite Hu.
    destruct (canCreateRequest (usePermissions auth)); [|done].
    by case_bool_decide. }
  split; [exact Hsubmit|]. split; [|split].
  - intros p. by rewrite exec_authenticated.
  - intros Hcan Hne. rewrite Hsubmit, Hcan.
    rewrite (bool_decide_eq_false_2 _ Hne). cbn [andb negb].
    by apply send_refused.
  - intros db'. rewrite Hsubmit.
    destruct (_ && _); [by rewrite send_refused|by intros [= <-]].
Qed.

Lemma create_request_refused_witness :
  handleSubmit trim_ascii (Ex.auth_of "uma" role_user)
    {| form_title := "  Printer is broken "; form_description := " ";
       form_priority := "high"; form_dueDate := None |}
  = [InsertRequest
       (RequestInsert.mk "Printer is broken" None "high" "new" None "uma"
          None)]
  /\ send Ex.env0 (signed_in "uma")
       (handleSubmit trim_ascii (Ex.auth_of "uma" role_user)
          {| form_title := "  Printer is broken "; form_description := " ";
             form_priority := "high"; form_dueDate := None |}) Ex.db0
     = Err infinite_recursion.
Proof.
  destruct (create_request_refused trim_ascii Ex.db0 (signed_in "uma")
              (Ex.auth_of "uma" role_user)
              (User.mk "uma" (Some "uma@example.org")) Ex.env0
              {| form_title := "  Printer is broken ";
                 form_description := " ";
                 form_priority := "high"; form_dueDate := None |})
    as (Hsubmit & _ & Hsend & _).
  { apply (in_sync_db0 "uma" role_user).
    apply list_elem_of_further, list_elem_of_further, list_elem_of_here. }
  split; [rewrite Hsubmit; vm_compute; reflexivity|].
  apply Hsend; [reflexivity|vm_compute; discriminate].
Defined.



(** * Sign-up and the profiles *)

Section SignupSchema.
Implicit Types (db : Database) (env : Env).

Lemma profile_exists_elem db i :
  profile_exists db i = true <-> i ∈ Profile.id <$> profiles db.
Proof.
  unfold profile_exists. rewrite existsb_exists, list_elem_of_fmap.
  split.
  - intros (p & Hin%list_elem_of_In & Hp%bool_decide_eq_true). eauto.
  - intros (p & -> & Hin). exists p.
    split; [by apply list_elem_of_In | by apply bool_decide_eq_true].
Qed.

Lemma email_taken_elem db e :
  existsb (fun p => bool_decide (Profile.email p = e)) (profiles db) = true
  <-> e ∈ Profile.email <$> profiles db.
Proof.
  rewrite existsb_exists, list_elem_of_fmap. split.
  - intros (p & Hin%list_elem_of_In & Hp%bool_decide_eq_true). eauto.
  - intros (p & -> & Hin). exists p.
    split; [by apply list_elem_of_In | by apply bool_decide_eq_true].
Qed.

(** What an [INSERT INTO profiles] that goes through has done: nothing, on
    a conflict that [ON CONFLICT (id) DO NOTHING] absorbs, or one row with
    a new id and a new email at the end of the table. *)
Lemma insert_profile_inv do_nothing env i oe fn role db db' :
  insert_profile do_nothing env i oe fn role db = Ok db' ->
  (do_nothing = true /\ profile_exists db i = true /\ db' = db)
  \/ (exists e,
        oe = Some e
        /\ profile_exists db i = false
        /\ (e ∉ Profile.email <$> profiles db)
        /\ db' = set_profiles
                   (fun rows => rows ++ [Profile.mk i e fn None role
                                           (now env) (now env)]) db).
Proof.
  unfold insert_profile. destruct oe as [e|]; [|done].
  destruct (profile_exists db i) eqn:Hid.
  - destruct do_nothing; [|done]. intros [= <-]. by left.
  - destruct (existsb _ (profiles db)) eqn:He; [done|].
    cbn [negb require mbind Result_bind]. intros [= <-]. right.
    exists e. split; [done|]. split; [done|]. split; [|done].
    intros Hin%email_taken_elem. congruence.
Qed.

Lemma handle_new_user_insert_inv do_nothing env new db db' :
  handle_new_user_insert do_nothing env new db = Ok db' ->
  db' = db
  \/ (exists p,
        Profile.id p = AuthUser.id new
        /\ Some (Profile.email p) = AuthUser.email new
        /\ (Profile.id p ∉ Profile.id <$> profiles db)
        /\ (Profile.email p ∉ Profile.email <$> profiles db)
        /\ db' = set_profiles (fun rows => rows ++ [p]) db).
Proof.
  unfold handle_new_user_insert.
  destruct (signup_role new) as [role|]; [|done].
  cbn [mbind Result_bind].
  intros [(_ & _ & ->)|(e & He & Hid & Hemail & ->)]%insert_profile_inv;
    [by left|].
  right. eexists (Profile.mk _ _ _ _ _ _ _). cbn.
  split; [done|]. split; [done|]. split; [|done].
  intros Hin%profile_exists_elem. congruence.
Qed.

Lemma trigger_inv trigger env new db db' :
  trigger = Signup.handle_new_user_v1 \/ trigger = Signup.handle_new_user ->
  trigger env new db = Ok db' ->
  db' = db
  \/ (exists p,
        Profile.id p = AuthUser.id new
        /\ Some (Profile.email p) = AuthUser.email new
        /\ (Profile.id p ∉ Profile.id <$> profiles db)
        /\ (Profile.email p ∉ Profile.email <$> profiles db)
        /\ db' = set_profiles (fun rows => rows ++ [p]) db).
Proof.
  intros [->| ->].
  - apply handle_new_user_insert_inv.
  - unfold Signup.handle_new_user.
    destruct (handle_new_user_insert true env new db) as [db1|e] eqn:E.
    + intros [= <-]. by eapply handle_new_user_insert_inv.
    + intros [= <-]. by left.
Qed.

Lemma set_profiles_app_schema db p :
  schema_ok db -> schema_ok (set_profiles (fun rows => rows ++ [p]) db).
Proof.
  intros Hok.
  assert (Hpe : forall i, profile_exists db i = true ->
            profile_exists (set_profiles (fun rows => rows ++ [p]) db) i
            = true).
  { intros i Hi. unfold profile_exists. cbn.
    rewrite existsb_app. unfold profile_exists in Hi. by rewrite Hi. }
  assert (Hpo : forall oi, profile_exists_opt db oi = true ->
            profile_exists_opt (set_profiles (fun rows => rows ++ [p]) db) oi
            = true)
    by (intros [i|]; [apply Hpe | done]).
  split; cbn [requests request_comments request_attachments request_activity
              set_profiles].
  - apply (requests_pk _ Hok).
  - intros r Hin. by apply Hpe, (requests_created_by_fk _ Hok).
  - intros r Hin. by apply Hpo, (requests_assigned_to_fk _ Hok).
  - intros c Hin. destruct (comments_fk _ Hok c Hin). auto.
  - intros a Hin. destruct (attachments_fk _ Hok a Hin). auto.
  - intros a Hin. destruct (activity_fk _ Hok a Hin). auto.
Qed.
End SignupSchema.

(** X21.
    Creating a user keeps the keys of [profiles] and leaves what is
    there alone.  With either version of [handle_new_user] as the trigger
    on [auth.users], from a state in which the ids and the emails of
    [profiles] are unique and every profile belongs to a user, a sign-up
    that goes through leads to such a state again; it adds the new user,
    changes no existing profile and adds at most one, whose id is the one
    of the new user; it touches no other table, and the keys of the other
    tables keep holding. *)
Theorem signup_keeps_profiles
    (trigger : Env -> AuthUser.t -> Database -> Result Database)
    (env : Env) (new : AuthUser.t)
    (st st' : list AuthUser.t * Database) :
  trigger = Signup.handle_new_user_v1 \/ trigger = Signup.handle_new_user ->
  profiles_ok st.2 ->
  (forall p, p ∈ profiles st.2 -> Profile.id p ∈ AuthUser.id <$> st.1) ->
  Signup.create_auth_user trigger env new st = Ok st' ->
  st'.1 = st.1 ++ [new]
  /\ profiles_ok st'.2
  /\ (forall p, p ∈ profiles st'.2 -> Profile.id p ∈ AuthUser.id <$> st'.1)
  /\ (profiles st'.2 = profiles st.2
      \/ exists p, Profile.id p = AuthUser.id new
           /\ profiles st'.2 = profiles st.2 ++ [p])
  /\ requests st'.2 = requests st.2
  /\ request_comments st'.2 = request_comments st.2
  /\ request_attachments st'.2 = request_attachments st.2
  /\ request_activity st'.2 = request_activity st.2
  /\ (schema_ok st.2 -> schema_ok st'.2).
Proof.
  destruct st as [users db], st' as [users' db']. cbn [fst snd].
  intros Htrig Hok Hown. unfold Signup.create_auth_user. cbn [fst snd].
  destruct (existsb _ users); [done|].
  cbn [negb require mbind Result_bind].
  destruct (trigger env new db) as [db1|e] eqn:E; [|done].
  cbn [mbind Result_bind]. intros [= <- <-]. split; [done|].
  destruct (trigger_inv _ _ _ _ _ Htrig E)
    as [->|(p & Hid & _ & Hnid & Hnemail & ->)].
  - split; [done|]. split.
    { intros p Hp. rewrite fmap_app. apply elem_of_app. auto. }
    split; [by left|]. done.
  - cbn [profiles requests request_comments request_attachments
         request_activity set_profiles].
    split.
    { split; cbn [profiles set_profiles]; rewrite fmap_app; apply NoDup_app.
      - split; [apply (profiles_pk _ Hok)|].
        split; [|apply NoDup_singleton].
        intros i Hi Heq%list_elem_of_singleton. by subst i.
      - split; [apply (profiles_email_unique _ Hok)|].
        split; [|apply NoDup_singleton].
        intros i Hi Heq%list_elem_of_singleton. by subst i. }
    split.
    { intros q [Hq|Heq%list_elem_of_singleton]%elem_of_app;
        rewrite fmap_app; apply elem_of_app.
      - left. auto.
      - right. subst q. rewrite Hid. apply list_elem_of_here. }
    split; [right; eauto|].
    do 4 (split; [done|]).
    apply set_profiles_app_schema.
Qed.

Lemma signup_keeps_profiles_witness :
  exists st',
    Signup.create_auth_user Signup.handle_new_user Ex.env0
      (Ex.signup_as "zed" (JString "admin"))
      ((fun i => Ex.signup_as i JNull) <$> ["ann"; "tom"; "uma"; "gina"],
       Ex.db0) = Ok st'
    /\ profiles_ok st'.2.
Proof.
  eexists. split; [vm_compute; reflexivity|].
  eapply (signup_keeps_profiles Signup.handle_new_user Ex.env0
            (Ex.signup_as "zed" (JString "admin"))
            ((fun i => Ex.signup_as i JNull) <$> ["ann"; "tom"; "uma"; "gina"],
             Ex.db0)).
  - by right.
  - split; apply (bool_decide_unpack _); vm_compute; reflexivity.
  - apply (proj1 (Forall_forall _ _)).
    apply (bool_decide_unpack _). vm_compute. reflexivity.
  - vm_compute; reflexivity.
Defined.
